(** * Drug of the Day: daily rotation, 09:00 unlock gate, quiz state and scoring

    A shallow embedding of the logic of the [DrugOfTheDay] component and of the
    helpers [setsEqual] and [next9amTs], together with the part of the
    ECMAScript [Date] object those functions call.

    Conventions.
    - A JavaScript number that the program only ever uses as an integer (a time
      value in milliseconds, a day count, a number of seconds) is a [Z]; the
      arithmetic is exact, the range limit of time values is not represented.
    - The local time zone is a standard offset from UTC and the list of its
      clock changes (daylight saving), each an instant and the offset from then
      on, in milliseconds.
    - A [Set<string>] is the list of its elements in insertion order.
    - A JavaScript object used as a record indexed by anchor id is a
      [gmap string _]; [undefined] is [None]. *)

From Stdlib Require Import ZArith Lia Bool List Ascii String.
From Stdlib Require Import DecimalString DecimalZ.
From stdpp Require Import base option list gmap strings.

Local Open Scope Z_scope.

(** ** The ECMAScript time arithmetic used by [Date] *)

Module ES.

Definition msPerSecond : Z := 1000.
Definition msPerMinute : Z := 60000.
Definition msPerHour : Z := 3600000.
Definition msPerDay : Z := 86400000.

Definition Day (t : Z) : Z := t / msPerDay.
Definition TimeWithinDay (t : Z) : Z := t mod msPerDay.

Definition isLeap (y : Z) : bool :=
if negb (y mod 4 =? 0) then false
else if negb (y mod 100 =? 0) then true
else if negb (y mod 400 =? 0) then false
else true.

Definition DaysInYear (y : Z) : Z := if isLeap y then 366 else 365.

Definition DayFromYear (y : Z) : Z :=
365 * (y - 1970) + (y - 1969) / 4 - (y - 1901) / 100 + (y - 1601) / 400.

(** [YearFromDay d] is the largest [y] with [DayFromYear y <= d]: an estimate
  from the mean length of the Gregorian year, moved by at most one year. *)
Definition YearFromDay (d : Z) : Z :=
let y := 1970 + (d * 400) / 146097 in
if DayFromYear (y + 1) <=? d then y + 1
else if d <? DayFromYear y then y - 1
else y.

Definition YearFromTime (t : Z) : Z := YearFromDay (Day t).
Definition InLeapYear (t : Z) : Z := if isLeap (YearFromTime t) then 1 else 0.
Definition DayWithinYear (t : Z) : Z := Day t - DayFromYear (YearFromTime t).

(** Day number within the year on which month [m] (0 = January) begins. *)
Definition monthStart (leap : Z) (m : Z) : Z :=
if m <=? 0 then 0
else if m =? 1 then 31
else if m =? 2 then 59 + leap
else if m =? 3 then 90 + leap
else if m =? 4 then 120 + leap
else if m =? 5 then 151 + leap
else if m =? 6 then 181 + leap
else if m =? 7 then 212 + leap
else if m =? 8 then 243 + leap
else if m =? 9 then 273 + leap
else if m =? 10 then 304 + leap
else 334 + leap.

Definition monthOfDayInYear (leap : Z) (dy : Z) : Z :=
if dy <? 31 then 0
else if dy <? 59 + leap then 1
else if dy <? 90 + leap then 2
else if dy <? 120 + leap then 3
else if dy <? 151 + leap then 4
else if dy <? 181 + leap then 5
else if dy <? 212 + leap then 6
else if dy <? 243 + leap then 7
else if dy <? 273 + leap then 8
else if dy <? 304 + leap then 9
else if dy <? 334 + leap then 10
else 11.

Definition MonthFromTime (t : Z) : Z :=
monthOfDayInYear (InLeapYear t) (DayWithinYear t).

Definition DateFromTime (t : Z) : Z :=
DayWithinYear t - monthStart (InLeapYear t) (MonthFromTime t) + 1.

Definition HourFromTime (t : Z) : Z := (t / msPerHour) mod 24.
Definition MinFromTime (t : Z) : Z := (t / msPerMinute) mod 60.
Definition SecFromTime (t : Z) : Z := (t / msPerSecond) mod 60.
Definition msFromTime (t : Z) : Z := t mod msPerSecond.

Definition MakeTime (hour min sec ms : Z) : Z :=
hour * msPerHour + min * msPerMinute + sec * msPerSecond + ms.

(** [MakeDay] normalises the month into the year, takes the day number of the
  first of that month and adds [date - 1]; a [date] outside the month rolls
  over into the neighbouring months. *)
Definition MakeDay (year month date : Z) : Z :=
let ym := year + month / 12 in
let mn := month mod 12 in
DayFromYear ym + monthStart (if isLeap ym then 1 else 0) mn + date - 1.

Definition MakeDate (day time : Z) : Z := day * msPerDay + time.

End ES.

(** ** Numbers and strings *)

(** A JavaScript number holding an integer, or [NaN]. *)
Inductive number : Set :=
  | NaN : number
  | Int : Z -> number.

(** [Number(s)] on the decimal integer literals, which is what the program
    stores; every other string is read as [NaN]. *)
Definition Number (s : string) : number :=
  match DecimalString.NilZero.int_of_string s with
  | Some i => Int (Z.of_int i)
  | None => NaN
  end.

(** [String(n)]. *)
Definition String_ (n : number) : string :=
  match n with
  | NaN => "NaN"%string
  | Int z => DecimalString.NilZero.string_of_int (Z.to_int z)
  end.

(** [n + 1] on numbers. *)
Definition succ (n : number) : number :=
  match n with
  | NaN => NaN
  | Int z => Int (z + 1)
  end.

(** [a || b] on a nullable string: [null] and the empty string are falsy. *)
Definition orElse (a : option string) (b : string) : string :=
  match a with
  | Some s => if decide (s = ""%string) then b else s
  | None => b
  end.

Definition digitChar (n : Z) : ascii :=
  Ascii.ascii_of_nat (48 + Z.to_nat (n mod 10)).

(** [padStart(w, "0")] of a natural number below [10^w]. *)
Fixpoint pad (w : nat) (n : Z) : string :=
  match w with
  | O => ""%string
  | S w' => (pad w' (n / 10) ++ String (digitChar n) "")%string
  end.

Definition digitVal (c : ascii) : option Z :=
  let n := Z.of_nat (Ascii.nat_of_ascii c) in
  if (48 <=? n) && (n <=? 57) then Some (n - 48) else None.

(** Value of a string made of decimal digits only. *)
Fixpoint digitsVal (acc : Z) (s : string) : option Z :=
  match s with
  | EmptyString => Some acc
  | String c s' =>
      match digitVal c with
      | Some v => digitsVal (10 * acc + v) s'
      | None => None
      end
  end.

Definition field (s : string) (pos len : nat) : option Z :=
  let f := substring pos len s in
  if decide (String.length f = len) then digitsVal 0 f else None.

Definition charAt (s : string) (pos : nat) : option ascii := String.get pos s.

(** ** Time zones *)

(** A zone: the offset in force before its first clock change, and the clock
    changes in order of time, each with the offset in force from then on. *)
Record Zone : Set := mkZone {
  initialOffset : Z;
  transitions : list (Z * Z)
}.

(** The offset in force at the instant [t]. *)
Fixpoint offsetAt (off : Z) (changes : list (Z * Z)) (t : Z) : Z :=
  match changes with
  | [] => off
  | (change, off') :: rest => if t <? change then off else offsetAt off' rest t
  end.

(** The offset by which the local time value [tlocal] is read: a local time
    that a clock change skips or repeats is read with the offset in force
    before that change. *)
Fixpoint offsetOfLocal (off : Z) (changes : list (Z * Z)) (tlocal : Z) : Z :=
  match changes with
  | [] => off
  | (change, off') :: rest =>
      if tlocal <? change + Z.max off off' then off
      else offsetOfLocal off' rest tlocal
  end.

(** [LocalTZA(t, isUTC)]. *)
Definition LocalTZA (zone : Zone) (t : Z) (isUTC : bool) : Z :=
  if isUTC then offsetAt (initialOffset zone) (transitions zone) t
  else offsetOfLocal (initialOffset zone) (transitions zone) t.

(** A zone that never changes its clock. *)
Definition fixedZone (offset : Z) : Zone := mkZone offset [].
Definition utcZone : Zone := fixedZone 0.

(** ** The [Date] object in the local time zone [zone] *)

Section DateObject.
Variable zone : Zone.

Definition LocalTime (t : Z) : Z := t + LocalTZA zone t true.
Definition UTC (t : Z) : Z := t - LocalTZA zone t false.

(** [new Date(year, month, date, hours, minutes, seconds, ms)]: the fields
    are read in local time and a year from 0 to 99 stands for 1900 + year. *)
Definition newDate (year month date hours minutes seconds ms : Z) : Z :=
  let yr := if (0 <=? year) && (year <=? 99) then 1900 + year else year in
  UTC (ES.MakeDate (ES.MakeDay yr month date)
                   (ES.MakeTime hours minutes seconds ms)).

Definition getTime (d : Z) : Z := d.
Definition getFullYear (d : Z) : Z := ES.YearFromTime (LocalTime d).
Definition getMonth (d : Z) : Z := ES.MonthFromTime (LocalTime d).
Definition getDate (d : Z) : Z := ES.DateFromTime (LocalTime d).
Definition getHours (d : Z) : Z := ES.HourFromTime (LocalTime d).
Definition getMinutes (d : Z) : Z := ES.MinFromTime (LocalTime d).
Definition getSeconds (d : Z) : Z := ES.SecFromTime (LocalTime d).
Definition getMilliseconds (d : Z) : Z := ES.msFromTime (LocalTime d).

(** [d.setDate(date)]: same local year, month and time of day. *)
Definition setDate (d : Z) (date : Z) : Z :=
  let t := LocalTime d in
  UTC (ES.MakeDate (ES.MakeDay (ES.YearFromTime t) (ES.MonthFromTime t) date)
                   (ES.TimeWithinDay t)).

(** [new Date(s)] for [s] of the form [YYYY-MM-DDTHH:mm:ss], which has
    no offset and is therefore read as local time; [None] is an invalid
    date. *)
Definition parseDate (s : string) : option Z :=
  if decide (String.length s = 19%nat
             ∧ charAt s 4 = Some "-"%char ∧ charAt s 7 = Some "-"%char
             ∧ charAt s 10 = Some "T"%char
             ∧ charAt s 13 = Some ":"%char ∧ charAt s 16 = Some ":"%char)
  then
    y ← field s 0 4; m ← field s 5 2; d ← field s 8 2;
    hh ← field s 11 2; mm ← field s 14 2; ss ← field s 17 2;
    if decide (1 <= m <= 12 ∧ 1 <= d <= 31 ∧ hh <= 23 ∧ mm <= 59 ∧ ss <= 59)
    then Some (UTC (ES.MakeDate (ES.MakeDay y (m - 1) d)
                                (ES.MakeTime hh mm ss 0)))
    else None
  else None.

(** *** [next9amTs] *)

Definition next9amTs (base : Z) : Z :=
  let d := base in
  let candidate := newDate (getFullYear d) (getMonth d) (getDate d) 9 0 0 0 in
  let candidate :=
    if base >=? getTime candidate
    then setDate candidate (getDate candidate + 1)
    else candidate in
  getTime candidate.

End DateObject.

(** [d.toISOString()]: the UTC fields; years outside 0..9999 take a sign and
    six digits. *)
Definition toISOString (d : Z) : string :=
  let y := ES.YearFromTime d in
  let year :=
    if (0 <=? y) && (y <=? 9999) then pad 4 y
    else ((if (0 <=? y)%Z then "+" else "-") ++ pad 6 (Z.abs y))%string in
  (year ++ "-" ++ pad 2 (ES.MonthFromTime d + 1)%Z ++ "-" ++ pad 2 (ES.DateFromTime d)
   ++ "T" ++ pad 2 (ES.HourFromTime d) ++ ":" ++ pad 2 (ES.MinFromTime d)
   ++ ":" ++ pad 2 (ES.SecFromTime d) ++ "." ++ pad 3 (ES.msFromTime d) ++ "Z")%string.

(** [s.slice(0, n)]. *)
Definition slice0 (n : nat) (s : string) : string := substring 0 n s.

(** [new Date(t).toISOString().slice(0, 10)]. *)
Definition isoDay (t : Z) : string := slice0 10 (toISOString t).

(** ** Content types *)

Module Option.
Record t : Set := mk { id : string; label : string }.
End Option.

Module Ref.
Record t : Set := mk { label : string; url : option string }.
End Ref.

Inductive AnchorType : Set := single | multi.

Module Anchor.
Record t : Set := mk {
  id : string;
  title : string;
  prompt : string;
  type : AnchorType;
  options : list Option.t;
  correct : list string;
  explanation : string;
  rationales : option (list (string * string));
  refs : option (list Ref.t)
}.
End Anchor.

Module Drug.
Record t : Set := mk {
  name : string;
  intro : option string;
  anchors : list Anchor.t;
  tags : option (list string)
}.
End Drug.

Local Open Scope string_scope.

Definition anchor_class : Anchor.t :=
  {| Anchor.id := "class";
     Anchor.title := "Drug class";
     Anchor.prompt := "Which class does ramipril belong to?";
     Anchor.type := single;
     Anchor.options :=
       [ {| Option.id := "ace"; Option.label := "ACE inhibitor" |};
         {| Option.id := "arb"; Option.label := "Angiotensin II receptor blocker (ARB)" |};
         {| Option.id := "ccb"; Option.label := "Dihydropyridine calcium‑channel blocker" |};
         {| Option.id := "bb"; Option.label := "Beta‑blocker" |} ];
     Anchor.correct := ["ace"];
     Anchor.explanation := "Ramipril is an ACE inhibitor (prodrug → ramiprilat).";
     Anchor.rationales := Some
       [ ("ace", "Correct — ACE inhibitors reduce Ang II formation and aldosterone; ramipril is a prodrug.");
         ("arb", "ARB = blocks AT1 receptor (e.g., losartan). That is not ACE inhibition.");
         ("ccb", "DHP CCBs (e.g., amlodipine) act on L‑type Ca²⁺ channels, unrelated to RAAS.");
         ("bb", "β‑blockers reduce sympathetic drive; mechanism distinct from RAAS.") ];
     Anchor.refs := Some [{| Ref.label := "BNF: Ramipril"; Ref.url := None |}; {| Ref.label := "NICE: Hypertension"; Ref.url := None |}] |}.

Definition anchor_indications : Anchor.t :=
  {| Anchor.id := "indications";
     Anchor.title := "Common indications";
     Anchor.prompt := "Select ALL common indications.";
     Anchor.type := multi;
     Anchor.options :=
       [ {| Option.id := "htn"; Option.label := "Hypertension" |};
         {| Option.id := "hfrEF"; Option.label := "Heart failure with reduced EF" |};
         {| Option.id := "postmi"; Option.label := "Post‑MI / secondary prevention" |};
         {| Option.id := "ckd"; Option.label := "CKD with albuminuria (incl. diabetic nephropathy)" |};
         {| Option.id := "angina"; Option.label := "Stable angina" |};
         {| Option.id := "migraine"; Option.label := "Migraine prophylaxis" |} ];
     Anchor.correct := ["htn"; "hfrEF"; "postmi"; "ckd"];
     Anchor.explanation := "HTN, HFrEF, post‑MI risk reduction, and CKD with albuminuria are standard indications.";
     Anchor.rationales := Some
       [ ("htn", "Yes — ACEi are first‑line in several groups; benefit from vasodilation & RAAS suppression.");
         ("hfrEF", "Yes — mortality and hospitalization benefit in HFrEF.");
         ("postmi", "Yes — improves remodeling and outcomes post‑MI.");
         ("ckd", "Yes — reduces intraglomerular pressure & albuminuria; kidney protection.");
         ("angina", "No — β‑blockers, nitrates, CCBs; ACEi not first‑line for angina itself.");
         ("migraine", "No — not an established migraine preventive.") ];
     Anchor.refs := Some [{| Ref.label := "BNF: Indications"; Ref.url := None |}] |}.

Definition anchor_moa : Anchor.t :=
  {| Anchor.id := "moa";
     Anchor.title := "Mechanism of action";
     Anchor.prompt := "Which statement best describes the mechanism?";
     Anchor.type := single;
     Anchor.options :=
       [ {| Option.id := "moa_true"; Option.label := "Inhibits ACE → ↓Ang II & ↓aldosterone + ↑bradykinin → vasodilation & ↓afterload" |};
         {| Option.id := "moa_arb"; Option.label := "Blocks AT1 receptor (ARB) to prevent Ang II binding" |};
         {| Option.id := "moa_ccb"; Option.label := "Blocks L‑type Ca²⁺ channels in vascular smooth muscle" |};
         {| Option.id := "moa_renin"; Option.label := "Direct renin inhibitor reduces Ang I formation" |} ];
     Anchor.correct := ["moa_true"];
     Anchor.explanation := "ACE inhibition lowers Ang II and aldosterone; reduced bradykinin breakdown contributes to vasodilation.";
     Anchor.rationales := Some
       [ ("moa_true", "Correct — classic ACEi pathway with bradykinin effects.");
         ("moa_arb", "ARB describes losartan/valsartan class, not ACE inhibitors.");
         ("moa_ccb", "This is the mechanism of dihydropyridine CCBs (e.g., amlodipine).");
         ("moa_renin", "Aliskiren inhibits renin; different step in RAAS than ACE.") ];
     Anchor.refs := Some [{| Ref.label := "Katzung: RAAS"; Ref.url := None |}] |}.

Definition anchor_adrs : Anchor.t :=
  {| Anchor.id := "adrs";
     Anchor.title := "Important adverse reactions";
     Anchor.prompt := "Select ALL clinically important ADRs you would counsel/monitor for.";
     Anchor.type := multi;
     Anchor.options :=
       [ {| Option.id := "cough"; Option.label := "Dry cough" |};
         {| Option.id := "angio"; Option.label := "Angioedema" |};
         {| Option.id := "k"; Option.label := "Hyperkalaemia" |};
         {| Option.id := "hypo"; Option.label := "Symptomatic hypotension/dizziness" |};
         {| Option.id := "renal"; Option.label := "Rise in creatinine/AKI risk (esp. renal artery stenosis)" |};
         {| Option.id := "gingiva"; Option.label := "Gingival hyperplasia" |};
         {| Option.id := "brady"; Option.label := "Bradycardia" |} ];
     Anchor.correct := ["cough"; "angio"; "k"; "hypo"; "renal"];
     Anchor.explanation := "ACEi: cough/angioedema (bradykinin), hyperkalaemia (↓aldosterone), hypotension; modest creatinine rise common.";
     Anchor.rationales := Some
       [ ("cough", "Yes — bradykinin accumulation causes a characteristic dry cough.");
         ("angio", "Yes — rare but serious; stop drug and treat urgently.");
         ("k", "Yes — aldosterone suppression raises serum potassium.");
         ("hypo", "Yes — first‑dose hypotension possible, especially if volume‑depleted.");
         ("renal", "Yes — efferent dilation can drop GFR; expect small creatinine bump, monitor.");
         ("gingiva", "No — more associated with dihydropyridine CCBs (e.g., nifedipine).");
         ("brady", "No — ACEi don’t directly slow heart rate; think β‑blockers or non‑DHP CCBs.") ];
     Anchor.refs := Some [{| Ref.label := "BNF: Adverse effects"; Ref.url := None |}] |}.

Definition anchor_interactions : Anchor.t :=
  {| Anchor.id := "interactions";
     Anchor.title := "Important drug–drug interactions";
     Anchor.prompt := "Select ALL interactions of concern.";
     Anchor.type := multi;
     Anchor.options :=
       [ {| Option.id := "kplus"; Option.label := "K⁺ supplements / K‑sparing diuretics (e.g., spironolactone)" |};
         {| Option.id := "nsaids"; Option.label := "NSAIDs (esp. chronic)" |};
         {| Option.id := "lithium"; Option.label := "Lithium" |};
         {| Option.id := "dualraas"; Option.label := "Dual RAAS blockade (ARB/aliskiren), esp. in diabetes" |};
         {| Option.id := "gfj"; Option.label := "Grapefruit juice" |};
         {| Option.id := "ppi"; Option.label := "PPIs" |} ];
     Anchor.correct := ["kplus"; "nsaids"; "lithium"; "dualraas"];
     Anchor.explanation := "↑K⁺ risk (K‑sparing/K⁺ salts); NSAIDs blunt effect & ↑AKI; lithium levels ↑; avoid dual RAAS (AKI/hyperkalaemia).";
     Anchor.rationales := Some
       [ ("kplus", "Yes — additive hyperkalaemia risk.");
         ("nsaids", "Yes — the ‘triple whammy’ with diuretics/ACEi can precipitate AKI and reduce antihypertensive effect.");
         ("lithium", "Yes — ACEi can reduce lithium clearance → toxicity; monitor or avoid.");
         ("dualraas", "Yes — more renal events/hyperkalaemia without clear benefit.");
         ("gfj", "No — ramipril isn’t a known grapefruit‑sensitive substrate of concern.");
         ("ppi", "No — no clinically relevant interaction.") ];
     Anchor.refs := Some [{| Ref.label := "BNF: Interactions"; Ref.url := None |}] |}.

Definition RAMIPRIL : Drug.t :=
  {| Drug.name := "ramipril";
     Drug.intro := Some "Work through the same five questions you used in teaching. Keep it snappy; aim for ~3 minutes.";
     Drug.anchors := [anchor_class; anchor_indications; anchor_moa; anchor_adrs; anchor_interactions];
     Drug.tags := Some ["cardio"; "renal"; "safety"] |}.

Local Close Scope string_scope.

(** ** [Set<string>] and [setsEqual] *)

Module JSSet.
Definition has (s : list string) (v : string) : bool := bool_decide (v ∈ s).
Definition add (s : list string) (v : string) : list string :=
  if has s v then s else s ++ [v].
Definition delete (s : list string) (v : string) : list string :=
  filter (λ x, x ≠ v) s.
Definition size (s : list string) : nat := length s.
(** [new Set(array)]: the elements in order of first occurrence. *)
Definition new (array : list string) : list string := fold_left add array [].
(** [Array.from(set)]. *)
Definition toArray (s : list string) : list string := s.
End JSSet.

Definition setsEqual (a b : list string) : bool :=
  if negb (Nat.eqb (JSSet.size a) (JSSet.size b)) then false
  else forallb (λ v, JSSet.has b v) a.

(** ** The results object *)

Record PerAnchor : Set := {
  anchor : Anchor.t;
  correct : bool;
  missed : list Option.t;
  wrong : list Option.t;
  selected : list Option.t;
  correctOpts : list Option.t
}.

(** [answers[id]] handed to [new Set]: a missing entry gives the empty set. *)
Definition answersFor (answers : gmap string (list string)) (id : string) : list string :=
  default [] (answers !! id).

Definition scoreAnchor (answers : gmap string (list string)) (a : Anchor.t) : PerAnchor :=
  let sel := JSSet.new (answersFor answers (Anchor.id a)) in
  let cor := JSSet.new (Anchor.correct a) in
  {| anchor := a;
     correct := setsEqual sel cor;
     missed := filter (λ o, JSSet.has cor (Option.id o) && negb (JSSet.has sel (Option.id o)))
                      (Anchor.options a);
     wrong := filter (λ o, JSSet.has sel (Option.id o) && negb (JSSet.has cor (Option.id o)))
                     (Anchor.options a);
     selected := filter (λ o, JSSet.has sel (Option.id o) : bool) (Anchor.options a);
     correctOpts := filter (λ o, JSSet.has cor (Option.id o) : bool) (Anchor.options a) |}.

(** [results]: [None] is [null], the value while [showResults] is false. *)
Definition results (drug : Drug.t) (answers : gmap string (list string))
    (showResults : bool) : option (list PerAnchor) :=
  if negb showResults then None
  else Some (map (scoreAnchor answers) (Drug.anchors drug)).

(** ** Results of running code that may throw *)

Inductive completion (A : Type) : Type :=
  | Normal : A -> completion A
  | Throw : string -> completion A.
Arguments Normal {A} _.
Arguments Throw {A} _.

(** [array[i]] for an integer [i]: [None] is [undefined]. *)
Definition arrayGet {A : Type} (array : list A) (i : Z) : option A :=
  if i <? 0 then None else array !! Z.to_nat i.

(** ** Component state *)

Record State : Type := mkState {
  idx : nat;
  answers : gmap string (list string);
  showResults : bool;
  showCompleted : bool;
  timerOn : bool;
  soundOn : bool;
  secondsLeftBy : gmap string Z;
  nextAt : option number;
  streak : number;
  tick : nat;
  localStorage : gmap string string
}.

Definition setIdx (v : nat) (s : State) : State :=
  mkState v (answers s) (showResults s) (showCompleted s) (timerOn s) (soundOn s)
          (secondsLeftBy s) (nextAt s) (streak s) (tick s) (localStorage s).
Definition setAnswers (v : gmap string (list string)) (s : State) : State :=
  mkState (idx s) v (showResults s) (showCompleted s) (timerOn s) (soundOn s)
          (secondsLeftBy s) (nextAt s) (streak s) (tick s) (localStorage s).
Definition setShowResults (v : bool) (s : State) : State :=
  mkState (idx s) (answers s) v (showCompleted s) (timerOn s) (soundOn s)
          (secondsLeftBy s) (nextAt s) (streak s) (tick s) (localStorage s).
Definition setShowCompleted (v : bool) (s : State) : State :=
  mkState (idx s) (answers s) (showResults s) v (timerOn s) (soundOn s)
          (secondsLeftBy s) (nextAt s) (streak s) (tick s) (localStorage s).
Definition setTimerOn (v : bool) (s : State) : State :=
  mkState (idx s) (answers s) (showResults s) (showCompleted s) v (soundOn s)
          (secondsLeftBy s) (nextAt s) (streak s) (tick s) (localStorage s).
Definition setSoundOn (v : bool) (s : State) : State :=
  mkState (idx s) (answers s) (showResults s) (showCompleted s) (timerOn s) v
          (secondsLeftBy s) (nextAt s) (streak s) (tick s) (localStorage s).
Definition setSecondsLeftBy (v : gmap string Z) (s : State) : State :=
  mkState (idx s) (answers s) (showResults s) (showCompleted s) (timerOn s) (soundOn s)
          v (nextAt s) (streak s) (tick s) (localStorage s).
Definition setNextAt (v : option number) (s : State) : State :=
  mkState (idx s) (answers s) (showResults s) (showCompleted s) (timerOn s) (soundOn s)
          (secondsLeftBy s) v (streak s) (tick s) (localStorage s).
Definition setStreak (v : number) (s : State) : State :=
  mkState (idx s) (answers s) (showResults s) (showCompleted s) (timerOn s) (soundOn s)
          (secondsLeftBy s) (nextAt s) v (tick s) (localStorage s).
Definition setTick (v : nat) (s : State) : State :=
  mkState (idx s) (answers s) (showResults s) (showCompleted s) (timerOn s) (soundOn s)
          (secondsLeftBy s) (nextAt s) (streak s) v (localStorage s).

(** [window.localStorage.setItem], [removeItem] and [getItem]. *)
Definition setItem (k v : string) (s : State) : State :=
  mkState (idx s) (answers s) (showResults s) (showCompleted s) (timerOn s) (soundOn s)
          (secondsLeftBy s) (nextAt s) (streak s) (tick s) (<[k := v]> (localStorage s)).
Definition removeItem (k : string) (s : State) : State :=
  mkState (idx s) (answers s) (showResults s) (showCompleted s) (timerOn s) (soundOn s)
          (secondsLeftBy s) (nextAt s) (streak s) (tick s) (delete k (localStorage s)).
Definition getItem (k : string) (s : State) : option string := localStorage s !! k.

(** The object [{ class: [], indications: [], moa: [], adrs: [], interactions: [] }]. *)
Definition emptyAnswers : gmap string (list string) :=
  <["class"%string := []]> (<["indications"%string := []]> (<["moa"%string := []]>
  (<["adrs"%string := []]> (<["interactions"%string := []]> ∅)))).

(** [initialTimes]: 35 seconds for each anchor of the drug. *)
Definition initialTimes (drug : Drug.t) : gmap string Z :=
  fold_left (λ d a, <[Anchor.id a := 35]> d) (Drug.anchors drug) ∅.

(** [secondsLeftBy[curr.id] ?? 35]. *)
Definition secondsLeft (curr : Anchor.t) (s : State) : Z :=
  default 35 (secondsLeftBy s !! Anchor.id curr).

Inductive Screen : Set := CompletedScreen | ResultsScreen | QuizScreen.

(** The order of the three [return]s of the render function. *)
Definition screen (s : State) : Screen :=
  if showCompleted s then CompletedScreen
  else if showResults s then ResultsScreen
  else QuizScreen.

(** ** The component [DrugOfTheDay] *)

Section DrugOfTheDay.
Variable zone : Zone.

Definition START_DATE_ISO : string := "2025-09-01".

(** *** [pickDrugForToday], one definition per local constant *)

Definition today9 (now : Z) : Z :=
  newDate zone (getFullYear zone now) (getMonth zone now) (getDate zone now) 9 0 0 0.

Definition boundaryNow (now : Z) : Z :=
  if getTime now >=? getTime (today9 now) then today9 now
  else getTime (today9 now) - 24 * 3600 * 1000.

Definition start9 : option Z := parseDate zone (START_DATE_ISO ++ "T09:00:00")%string.

(** [days]; [None] when [start9] is an invalid date, where [days] is [NaN]. *)
Definition days (now : Z) : option Z :=
  s ← start9; Some ((getTime (boundaryNow now) - getTime s) / (24 * 3600 * 1000)).

(** [idx], with [%] the remainder that takes the sign of the dividend. *)
Definition pickIdx (days len : Z) : Z :=
  if 0 <? len then Z.rem (Z.rem days len + len) len else 0.

Definition pickDrugForToday (now : Z) (list : list Drug.t) : option Drug.t :=
  let len := Z.of_nat (length list) in
  match days now with
  | Some days =>
      let idx := pickIdx days len in
      if 0 <? len then arrayGet list idx else arrayGet list 0
  | None => None
  end.

(** *** Event handlers and effects; [curr] is [drug.anchors[idx]] *)

Definition total (drug : Drug.t) : nat := length (Drug.anchors drug).

(** The callback of the one-second timeout. *)
Definition timerCallback (curr : Anchor.t) (s : State) : State :=
  let prev := secondsLeftBy s in
  setSecondsLeftBy
    (<[Anchor.id curr := Z.max 0 (default 35 (prev !! Anchor.id curr) - 1)]> prev) s.

(** The countdown effect arms the timeout only under these conditions. *)
Definition timerArmed (curr : Anchor.t) (s : State) : bool :=
  timerOn s && negb (showResults s) && negb (showCompleted s)
  && (0 <? secondsLeft curr s).

Definition toggle (curr : Anchor.t) (id : string) (s : State) : State :=
  let prev := JSSet.new (answersFor (answers s) (Anchor.id curr)) in
  match Anchor.type curr with
  | single => setAnswers (<[Anchor.id curr := [id]]> (answers s)) s
  | multi =>
      let prev := if JSSet.has prev id then JSSet.delete prev id else JSSet.add prev id in
      setAnswers (<[Anchor.id curr := JSSet.toArray prev]> (answers s)) s
  end.

Definition goNext (drug : Drug.t) (s : State) : State :=
  if (idx s + 1 <? total drug)%nat then setIdx (idx s + 1)%nat s
  else setShowResults true s.

Definition goBack (s : State) : State :=
  if (0 <? idx s)%nat then setIdx (idx s - 1)%nat s else s.

Definition clearSelection (curr : Anchor.t) (s : State) : State :=
  setAnswers (<[Anchor.id curr := []]> (answers s)) s.

Definition markReviewComplete (now : Z) (s : State) : State :=
  let target := next9amTs zone now in
  setShowCompleted true
    (setNextAt (Some (Int target))
       (setItem "dotd_next_at" (String_ (Int target)) s)).

(** The streak effect, run when [results] changes; [results] is [null]
    exactly when [showResults] is false. Both clock reads are [now]. *)
Definition streakEffect (now : Z) (s : State) : State :=
  if negb (showResults s) then s
  else
    let today := isoDay now in
    let lastDone := getItem "dotd_last" s in
    let streakVal := Number (orElse (getItem "dotd_streak" s) "0") in
    if decide (lastDone ≠ Some today) then
      let yesterday := isoDay (now - 24 * 3600 * 1000) in
      let streakVal := if decide (lastDone = Some yesterday) then succ streakVal else Int 1 in
      setStreak streakVal
        (setItem "dotd_last" today
           (setItem "dotd_streak" (String_ streakVal) s))
    else setStreak streakVal s.

(** The button "Try again" of the results screen. *)
Definition tryAgain (s : State) : State :=
  setAnswers emptyAnswers (setIdx 0 (setShowResults false s)).

(** [nextAt] used as a condition: [null], [NaN] and [0] are falsy. *)
Definition truthy (v : option number) : bool :=
  match v with
  | Some (Int n) => negb (n =? 0)
  | _ => false
  end.

(** [currentLeft], and [ready] of the completed screen. *)
Definition currentLeft (now : Z) (s : State) : Z :=
  match nextAt s with
  | Some (Int n) => if truthy (nextAt s) then Z.max 0 (n - now) else 0
  | _ => 0
  end.
Definition ready (now : Z) (s : State) : bool := currentLeft now s <=? 0.

(** The button "Back to home" of the completed screen. *)
Definition backToHome (s : State) : State :=
  setIdx 0 (setShowResults false (setShowCompleted false s)).

(** The button "Start next dose" of the completed screen (enabled when [ready]). *)
Definition startNextDose (s : State) : State :=
  setIdx 0 (setShowCompleted false (setNextAt None (removeItem "dotd_next_at" s))).

(** The one-second interval of the completed screen. *)
Definition countdownTick (s : State) : State := setTick (tick s + 1)%nat s.

(** *** First render, with the effect that reads the stored streak *)

Definition initialState (drug : Drug.t) (storage : gmap string string) : State :=
  {| idx := 0;
     answers := emptyAnswers;
     showResults := false;
     showCompleted := false;
     timerOn := true;
     soundOn := true;
     secondsLeftBy := initialTimes drug;
     nextAt := match storage !! "dotd_next_at"%string with
               | Some v => if decide (v = ""%string) then None else Some (Number v)
               | None => None
               end;
     streak := Number (orElse (storage !! "dotd_streak"%string) "0");
     tick := 0;
     localStorage := storage |}.

(** Mounting the component: [drug.anchors] and [curr.id] throw a [TypeError]
    when [drug], respectively [drug.anchors[0]], is [undefined]. *)
Definition mount (now : Z) (list : list Drug.t) (storage : gmap string string)
    : completion (Drug.t * State) :=
  match pickDrugForToday now list with
  | None => Throw "TypeError"
  | Some drug =>
      match Drug.anchors drug !! idx (initialState drug storage) with
      | None => Throw "TypeError"
      | Some curr => Normal (drug, initialState drug storage)
      end
  end.

(** *** Transitions: what the user and the timers can do on each screen *)

Inductive step (drug : Drug.t) : State -> State -> Prop :=
  | step_toggle s curr o :
      screen s = QuizScreen -> Drug.anchors drug !! idx s = Some curr ->
      o ∈ Anchor.options curr ->
      step drug s (toggle curr (Option.id o) s)
  | step_goNext s now :
      screen s = QuizScreen ->
      step drug s (streakEffect now (goNext drug s))
  | step_goBack s :
      screen s = QuizScreen -> (0 < idx s)%nat ->
      step drug s (goBack s)
  | step_clearSelection s curr :
      screen s = QuizScreen -> Drug.anchors drug !! idx s = Some curr ->
      step drug s (clearSelection curr s)
  | step_timer s curr :
      Drug.anchors drug !! idx s = Some curr -> timerArmed curr s = true ->
      step drug s (timerCallback curr s)
  | step_setTimerOn s b :
      screen s = QuizScreen -> step drug s (setTimerOn b s)
  | step_setSoundOn s b :
      screen s = QuizScreen -> step drug s (setSoundOn b s)
  | step_tryAgain s :
      screen s = ResultsScreen -> step drug s (tryAgain s)
  | step_markReviewComplete s now :
      screen s = ResultsScreen -> step drug s (markReviewComplete now s)
  | step_backToHome s :
      screen s = CompletedScreen -> step drug s (backToHome s)
  | step_startNextDose s now :
      screen s = CompletedScreen -> ready now s = true ->
      step drug s (startNextDose s)
  | step_countdownTick s :
      screen s = CompletedScreen -> truthy (nextAt s) = true ->
      step drug s (countdownTick s).

(** States the component can be in after it mounted on [drug]. *)
Inductive reachable (drug : Drug.t) : State -> Prop :=
  | reachable_mount storage :
      Drug.anchors drug ≠ [] -> reachable drug (initialState drug storage)
  | reachable_step s s' :
      reachable drug s -> step drug s s' -> reachable drug s'.

End DrugOfTheDay.

(** ** Notions used in the statements *)

(** The local calendar day of a time value and its local time of day. *)
Definition localDay (zone : Zone) (t : Z) : Z := ES.Day (LocalTime zone t).
Definition timeOfDay (zone : Zone) (t : Z) : Z := ES.TimeWithinDay (LocalTime zone t).

(** 09:00:00.000 as a time of day. *)
Definition nine : Z := ES.MakeTime 9 0 0 0.

(** The local year of [t] is not one that [new Date(year, ...)] reads as
    1900 + year. *)
Definition plainYear (zone : Zone) (t : Z) : Prop := ¬ (0 <= getFullYear zone t <= 99).

(** The UTC years in which [toISOString] writes the year with four digits, for
    [t] and for the instant 24 hours before it. *)
Definition fourDigitYears (t : Z) : Prop :=
  0 <= ES.YearFromTime (t - 24 * 3600 * 1000) ∧ ES.YearFromTime t <= 9999.

(** The index as the specification writes it, with the modulo of a floored
    division. *)
Definition specIndex (daysSinceEpoch N : Z) : Z :=
  ((daysSinceEpoch mod N) + N) mod N.

Definition optionIds (a : Anchor.t) : list string := map Option.id (Anchor.options a).

(** The ids of a list of options, and a list of ids, as finite sets. *)
Definition idSet (l : list Option.t) : gset string := list_to_set (map Option.id l).
Definition asSet (l : list string) : gset string := list_to_set l.

(** The quiz is in progress: the quiz screen shows an anchor of the drug. *)
Definition InProgress (drug : Drug.t) (s : State) : Prop :=
  screen s = QuizScreen ∧ (idx s < total drug)%nat.

(** What the specification says of [resetAll]. *)
Definition resetAll_claim (drug : Drug.t) (s' : State) : Prop :=
  InProgress drug s' ∧ idx s' = 0%nat
  ∧ (∀ a, a ∈ Drug.anchors drug -> answersFor (answers s') (Anchor.id a) = [])
  ∧ (∀ a, a ∈ Drug.anchors drug -> secondsLeftBy s' !! Anchor.id a = Some 35).

(** What the specification says of the selector on an empty content array. *)
Definition failsWith {A : Type} (c : completion A) (errorName : string) : Prop :=
  c = Throw errorName.

(** *** A session on [RAMIPRIL], used as concrete input *)

(** 2025-09-03 10:00 and 08:00 local time. *)
Definition sep3_10h (zone : Zone) : Z := newDate zone 2025 8 3 10 0 0 0.
Definition sep3_08h (zone : Zone) : Z := newDate zone 2025 8 3 8 0 0 0.

Definition session0 : State := initialState RAMIPRIL ∅.
(** One second passes on the first question. *)
Definition session1 : State := timerCallback anchor_class session0.
(** The user picks "ace", then walks through the five questions. *)
Definition session2 : State := toggle anchor_class "ace" session1.
Definition session3 : State :=
  let next s := streakEffect (sep3_10h utcZone) (goNext RAMIPRIL s) in
  next (next (next (next session2))).
(** After the last "Finish", the results screen. *)
Definition sessionResults : State := streakEffect (sep3_10h utcZone) (goNext RAMIPRIL session3).
(** "Mark review complete" at 10:00, the completed screen. *)
Definition sessionCompleted : State := markReviewComplete utcZone (sep3_10h utcZone) sessionResults.

(** *** Regular zones *)

(** The local time value [tlocal] names exactly one instant, the one [UTC]
    returns: that instant shows [tlocal] on the local clock. *)
Definition consistent (zone : Zone) (tlocal : Z) : Prop :=
  LocalTime zone (UTC zone tlocal) = tlocal.

(** 09:00 of the local day [day] is reached once: the local clock shows less
    before that instant and at least 09:00 of that day from it on. *)
Definition regular09 (zone : Zone) (day : Z) : Prop :=
  consistent zone (ES.MakeDate day nine)
  ∧ ∀ t, t < UTC zone (ES.MakeDate day nine) <-> LocalTime zone t < ES.MakeDate day nine.

(** The 09:00 of the two local days are read with the same offset. *)
Definition sameOffset09 (zone : Zone) (day day' : Z) : Prop :=
  LocalTZA zone (ES.MakeDate day nine) false = LocalTZA zone (ES.MakeDate day' nine) false.

(** The local time values [lo <= hi] lie strictly between a local 09:00 and
    the next one. *)
Definition awayFrom09 (lo hi : Z) : bool :=
  let w := (lo - nine) / ES.msPerDay in
  (w * ES.msPerDay + nine <? lo) && (hi <? (w + 1) * ES.msPerDay + nine).

(** The clock changes are in order of time, and at each one the local clock
    shows, before and after, times strictly between the same two 09:00. *)
Fixpoint changesAwayFrom09 (off : Z) (changes : list (Z * Z)) : bool :=
  match changes with
  | [] => true
  | (change, off') :: rest =>
      awayFrom09 (change + Z.min off off') (change + Z.max off off')
      && match rest with
         | [] => true
         | (next, _) :: _ => change <? next
         end
      && changesAwayFrom09 off' rest
  end.

(** No clock change of the zone crosses a local 09:00. *)
Definition regularZone (zone : Zone) : Prop :=
  changesAwayFrom09 (initialOffset zone) (transitions zone) = true.

(** The clock of Europe/London in 2025: summer time from 2025-03-30 01:00 UTC
    to 2025-10-26 01:00 UTC. *)
Definition london2025 : Zone :=
  Eval vm_compute in
    mkZone 0
      [ (ES.MakeDate (ES.MakeDay 2025 2 30) (ES.MakeTime 1 0 0 0), 1 * ES.msPerHour);
        (ES.MakeDate (ES.MakeDay 2025 9 26) (ES.MakeTime 1 0 0 0), 0) ].

(** The clock of Australia/Sydney from April 2025 to October 2026: summer time
    from 2025-10-04 16:00 UTC to 2026-04-04 16:00 UTC. *)
Definition sydney2025 : Zone :=
  Eval vm_compute in
    mkZone (10 * ES.msPerHour)
      [ (ES.MakeDate (ES.MakeDay 2025 9 4) (ES.MakeTime 16 0 0 0), 11 * ES.msPerHour);
        (ES.MakeDate (ES.MakeDay 2026 3 4) (ES.MakeTime 16 0 0 0), 10 * ES.msPerHour) ].

(** The results screen on the day after a completion at streak 4. *)
Definition streakState : State :=
  setShowResults true
    (initialState RAMIPRIL
       (<["dotd_last"%string := "2025-09-02"%string]>
          (<["dotd_streak"%string := "4"%string]> ∅))).

(** What every state of a mounted component satisfies: the index points at an
    anchor, every stored time is between 0 and 35, and the completed screen is
    only shown over the results. *)
Definition stateInv (drug : Drug.t) (s : State) : Prop :=
  (idx s < total drug)%nat
  ∧ (∀ id v, secondsLeftBy s !! id = Some v -> 0 <= v <= 35)
  ∧ (showCompleted s = true -> showResults s = true).

(** The second question of the session, reached with "Next". *)
Definition sessionSecond : State := streakEffect (sep3_10h utcZone) (goNext RAMIPRIL session2).

(** ** More of the component: dev tests, countdown format, geolocation *)

(** [d.setHours(hours, minutes, seconds, ms)]: same local day. *)
Definition setHours (zone : Zone) (d hours minutes seconds ms : Z) : Z :=
  UTC zone (ES.MakeDate (ES.Day (LocalTime zone d)) (ES.MakeTime hours minutes seconds ms)).

(** [runDevTests]: the list of the test names logged with their verdict.
    Nothing runs without a [window] or once [__DOTD_TESTED__] is set; the three
    [new Date()] read the clock at [now1], [now2] and [now3]. *)
Definition runDevTests (zone : Zone) (hasWindow tested : bool) (now1 now2 now3 : Z)
    : list (string * bool) :=
  if negb hasWindow then []
  else if tested then []
  else
    let d1 := setHours zone now1 8 0 0 0 in
    let n1 := next9amTs zone (getTime d1) in
    let e1 := getTime (newDate zone (getFullYear zone d1) (getMonth zone d1) (getDate zone d1) 9 0 0 0) in
    let d2 := setHours zone now2 9 0 0 0 in
    let n2 := next9amTs zone (getTime d2) in
    let e2 := getTime (newDate zone (getFullYear zone d2) (getMonth zone d2) (getDate zone d2 + 1) 9 0 0 0) in
    let d3 := setHours zone now3 14 0 0 0 in
    let n3 := next9amTs zone (getTime d3) in
    let e3 := getTime (newDate zone (getFullYear zone d3) (getMonth zone d3) (getDate zone d3 + 1) 9 0 0 0) in
    [ ("next9am - before 9am"%string, bool_decide (n1 = e1));
      ("next9am - at 9am"%string, bool_decide (n2 = e2));
      ("next9am - after 9am"%string, bool_decide (n3 = e3)) ].

(** [s.padStart(targetLength, c)] for a one-character filler. *)
Fixpoint repeatChar (n : nat) (c : ascii) : string :=
  match n with
  | O => ""%string
  | S n' => String c (repeatChar n' c)
  end.
Definition padStart (targetLength : nat) (c : ascii) (s : string) : string :=
  (repeatChar (targetLength - String.length s) c ++ s)%string.

(** [fmt], with its local [pad]. *)
Definition fmt_pad (n : Z) : string := padStart 2 "0" (String_ (Int n)).
Definition fmt (ms : Z) : string :=
  let total := ms / 1000 in
  let h := total / 3600 in
  let m := Z.rem total 3600 / 60 in
  let s := Z.rem total 60 in
  (fmt_pad h ++ ":" ++ fmt_pad m ++ ":" ++ fmt_pad s)%string.

(** *** [useDeviceLocation]; [C] is the type of a pair of coordinates *)

Inductive GeoStatus : Set := idle | prompt | granted | denied | unavailable.

Record GeoState (C : Type) : Type := mkGeo {
  coords : option C;
  status : GeoStatus;
  (* calls of [getCurrentPosition] that have not called back yet *)
  pending : nat
}.
Arguments mkGeo {C} _ _ _.
Arguments coords {C} _.
Arguments status {C} _.
Arguments pending {C} _.

Definition geoInitial {C : Type} : GeoState C := mkGeo None idle 0.

(** [request]; [hasGeolocation] is ["geolocation" in navigator]. *)
Definition request {C : Type} (hasGeolocation : bool) (g : GeoState C) : GeoState C :=
  if negb hasGeolocation then mkGeo (coords g) unavailable (pending g)
  else mkGeo (coords g) prompt (S (pending g)).

(** The success and the error callback of [getCurrentPosition]. *)
Definition onPosition {C : Type} (pos : C) (g : GeoState C) : GeoState C :=
  mkGeo (Some pos) granted (pending g - 1).
Definition onPositionError {C : Type} (g : GeoState C) : GeoState C :=
  mkGeo (coords g) denied (pending g - 1).

Inductive geoStep {C : Type} : GeoState C -> GeoState C -> Prop :=
  | geo_request g b : geoStep g (request b g)
  | geo_position g pos : (0 < pending g)%nat -> geoStep g (onPosition pos g)
  | geo_error g : (0 < pending g)%nat -> geoStep g (onPositionError g).

Inductive geoReachable {C : Type} : GeoState C -> Prop :=
  | geo_initial : geoReachable geoInitial
  | geo_next g g' : geoReachable g -> geoStep g g' -> geoReachable g'.

(** ** Notions used in the further statements *)

(** The answers of a state fit the drug: for each anchor the selected ids are
    option ids of that anchor, without repetition, and at most one for an
    anchor of type [single]. *)
Definition answersFit (drug : Drug.t) (s : State) : Prop :=
  ∀ a, a ∈ Drug.anchors drug ->
    let sel := answersFor (answers s) (Anchor.id a) in
    NoDup sel ∧ sel ⊆ optionIds a
    ∧ (Anchor.type a = single -> (length sel <= 1)%nat).

(** The anchors of a drug have pairwise different ids. *)
Definition distinctAnchors (drug : Drug.t) : Prop :=
  NoDup (map Anchor.id (Drug.anchors drug)).

(** The second question with two options ticked. *)
Definition sessionTicked : State :=
  toggle anchor_indications "ckd" (toggle anchor_indications "htn" sessionSecond).

(** * Properties *)

(** ** Calendar arithmetic *)

Ltac zlia := Z.to_euclidean_division_equations; lia.

Lemma DayFromYear_succ y : ES.DayFromYear (y + 1) = ES.DayFromYear y + ES.DaysInYear y.
Proof.
  unfold ES.DayFromYear, ES.DaysInYear, ES.isLeap.
  repeat match goal with
         | |- context [Z.eqb ?a ?b] => destruct (Z.eqb_spec a b); cbn [negb]
         end; zlia.
Qed.

Lemma DayFromYear_mono y y' : y <= y' -> ES.DayFromYear y <= ES.DayFromYear y'.
Proof. unfold ES.DayFromYear. zlia. Qed.

(** [YearFromDay d] is the year whose days contain [d]. *)
Lemma YearFromDay_spec d :
  ES.DayFromYear (ES.YearFromDay d) <= d < ES.DayFromYear (ES.YearFromDay d + 1).
Proof.
  unfold ES.YearFromDay.
  set (y := 1970 + d * 400 / 146097).
  assert (Hlo : ES.DayFromYear (y - 1) <= d) by (unfold ES.DayFromYear, y; zlia).
  assert (Hhi : d < ES.DayFromYear (y + 2)) by (unfold ES.DayFromYear, y; zlia).
  destruct (Z.leb_spec (ES.DayFromYear (y + 1)) d).
  - replace (y + 1 + 1) with (y + 2) by lia. lia.
  - destruct (Z.ltb_spec d (ES.DayFromYear y)).
    + replace (y - 1 + 1) with y by lia. lia.
    + lia.
Qed.

(** It is the largest year that starts on or before [d], as ECMAScript
    defines [YearFromTime]. *)
Lemma YearFromDay_largest d y : ES.DayFromYear y <= d <-> y <= ES.YearFromDay d.
Proof.
  pose proof (YearFromDay_spec d) as [Hlo Hhi]. split; intros H.
  - destruct (Z.le_gt_cases y (ES.YearFromDay d)) as [|Hgt]; [done|].
    pose proof (DayFromYear_mono (ES.YearFromDay d + 1) y). lia.
  - pose proof (DayFromYear_mono y (ES.YearFromDay d)). lia.
Qed.

Lemma YearFromDay_unique d y :
  ES.DayFromYear y <= d < ES.DayFromYear (y + 1) -> ES.YearFromDay d = y.
Proof.
  intros [Hlo Hhi].
  apply YearFromDay_largest in Hlo.
  destruct (Z.le_gt_cases (ES.YearFromDay d) y) as [|Hgt]; [lia|].
  assert (y + 1 <= ES.YearFromDay d) as Hle by lia.
  apply YearFromDay_largest in Hle. lia.
Qed.

Lemma DayWithinYear_range t :
  0 <= ES.DayWithinYear t < ES.DaysInYear (ES.YearFromTime t).
Proof.
  unfold ES.DayWithinYear, ES.YearFromTime.
  pose proof (YearFromDay_spec (ES.Day t)).
  rewrite DayFromYear_succ in *. lia.
Qed.

Lemma monthOfDayInYear_range leap dy : 0 <= ES.monthOfDayInYear leap dy <= 11.
Proof.
  unfold ES.monthOfDayInYear.
  repeat match goal with
         | |- context [Z.ltb ?a ?b] => destruct (Z.ltb_spec a b)
         end; lia.
Qed.

(** The month found for a day of the year contains that day. *)
Lemma monthStart_le leap dy :
  0 <= leap <= 1 -> 0 <= dy < 365 + leap ->
  let m := ES.monthOfDayInYear leap dy in
  ES.monthStart leap m <= dy
  ∧ dy - ES.monthStart leap m < 31.
Proof.
  intros Hl Hd. unfold ES.monthOfDayInYear.
  repeat match goal with
         | |- context [Z.ltb ?a ?b] => destruct (Z.ltb_spec a b)
         end; cbn; lia.
Qed.

Lemma InLeapYear_range t : 0 <= ES.InLeapYear t <= 1.
Proof. unfold ES.InLeapYear. destruct (ES.isLeap _); lia. Qed.

Lemma DaysInYear_InLeapYear t : ES.DaysInYear (ES.YearFromTime t) = 365 + ES.InLeapYear t.
Proof. unfold ES.DaysInYear, ES.InLeapYear. by destruct (ES.isLeap _). Qed.

Lemma MonthFromTime_range t : 0 <= ES.MonthFromTime t <= 11.
Proof. apply monthOfDayInYear_range. Qed.

Lemma DateFromTime_range t : 1 <= ES.DateFromTime t <= 31.
Proof.
  unfold ES.DateFromTime, ES.MonthFromTime.
  pose proof (DayWithinYear_range t) as Hd. rewrite DaysInYear_InLeapYear in Hd.
  pose proof (monthStart_le _ _ (InLeapYear_range t) Hd) as H. cbn zeta in H. lia.
Qed.

(** [MakeDay] undoes the three field selectors, and a date past the end of
    the month counts on into the following days. *)
Lemma MakeDay_fields t k :
  ES.MakeDay (ES.YearFromTime t) (ES.MonthFromTime t) (ES.DateFromTime t + k)
  = ES.Day t + k.
Proof.
  pose proof (MonthFromTime_range t) as Hm.
  unfold ES.MakeDay.
  replace (ES.MonthFromTime t / 12) with 0 by zlia.
  replace (ES.MonthFromTime t mod 12) with (ES.MonthFromTime t) by zlia.
  rewrite Z.add_0_r.
  change (if ES.isLeap (ES.YearFromTime t) then 1 else 0) with (ES.InLeapYear t).
  unfold ES.DateFromTime, ES.DayWithinYear. lia.
Qed.

Lemma Day_MakeDate day time :
  0 <= time < ES.msPerDay -> ES.Day (ES.MakeDate day time) = day.
Proof. unfold ES.Day, ES.MakeDate, ES.msPerDay. zlia. Qed.

Lemma TimeWithinDay_MakeDate day time :
  0 <= time < ES.msPerDay -> ES.TimeWithinDay (ES.MakeDate day time) = time.
Proof. unfold ES.TimeWithinDay, ES.MakeDate, ES.msPerDay. zlia. Qed.

Lemma MakeDate_Day t : ES.MakeDate (ES.Day t) (ES.TimeWithinDay t) = t.
Proof. unfold ES.MakeDate, ES.Day, ES.TimeWithinDay, ES.msPerDay. zlia. Qed.

Lemma TimeWithinDay_range t : 0 <= ES.TimeWithinDay t < ES.msPerDay.
Proof. unfold ES.TimeWithinDay, ES.msPerDay. zlia. Qed.

(** The time of day is what the four clock getters show. *)
Lemma TimeWithinDay_fields t :
  ES.TimeWithinDay t
  = ES.MakeTime (ES.HourFromTime t) (ES.MinFromTime t) (ES.SecFromTime t) (ES.msFromTime t).
Proof.
  unfold ES.TimeWithinDay, ES.MakeTime, ES.HourFromTime, ES.MinFromTime,
    ES.SecFromTime, ES.msFromTime, ES.msPerDay, ES.msPerHour, ES.msPerMinute,
    ES.msPerSecond.
  zlia.
Qed.

(** ** Time zones *)

Lemma offsetAt_before off changes t :
  match changes with [] => True | (change, _) :: _ => t < change end ->
  offsetAt off changes t = off.
Proof.
  destruct changes as [|[change off'] rest]; [reflexivity|]. cbn [offsetAt].
  intros H. destruct (Z.ltb_spec t change); [reflexivity | lia].
Qed.

Lemma awayFrom09_spec lo hi :
  awayFrom09 lo hi = true ->
  ∃ w, w * 86400000 + nine < lo ∧ hi < (w + 1) * 86400000 + nine.
Proof.
  unfold awayFrom09. change ES.msPerDay with 86400000.
  intros [H1 H2]%andb_prop. apply Z.ltb_lt in H1, H2. eauto.
Qed.

(** After a clock change in a regular zone the local clock never shows a time
    at or before the 09:00 that preceded the change. *)
Lemma local_after_change changes : ∀ off change w t,
  changesAwayFrom09 off changes = true ->
  match changes with [] => True | (next, _) :: _ => change < next end ->
  w * 86400000 + nine < change + off -> change <= t ->
  w * 86400000 + nine < t + offsetAt off changes t.
Proof.
  induction changes as [|[next off'] rest IH]; intros off change w t Hok Hord Hw Ht.
  - cbn. lia.
  - cbn [changesAwayFrom09] in Hok.
    apply andb_prop in Hok as [Hok Hrest]. apply andb_prop in Hok as [Haway Hsorted].
    destruct (awayFrom09_spec _ _ Haway) as (w' & Hlo & Hhi).
    cbn [offsetAt]. destruct (Z.ltb_spec t next); [lia|].
    assert (w <= w') by (generalize dependent nine; intros; lia).
    assert (w' * 86400000 + nine < t + offsetAt off' rest t) as H'.
    { apply (IH off' next w' t Hrest); [|lia|lia].
      destruct rest as [|[next' ?] ?]; [done|]. by apply Z.ltb_lt in Hsorted. }
    generalize dependent nine; intros; lia.
Qed.

(** In a regular zone every local 09:00 names one instant, and the local
    clock passes it there once. *)
Lemma regular09_changes changes : ∀ off day,
  changesAwayFrom09 off changes = true ->
  let x := day * 86400000 + nine in
  let c := x - offsetOfLocal off changes x in
  offsetAt off changes c = offsetOfLocal off changes x
  ∧ ∀ t, t < c <-> t + offsetAt off changes t < x.
Proof.
  induction changes as [|[change off'] rest IH]; intros off day Hok x c.
  - cbn in *. split; [reflexivity|]. intros t. unfold c. lia.
  - cbn [changesAwayFrom09] in Hok.
    apply andb_prop in Hok as [Hok Hrest]. apply andb_prop in Hok as [Haway Hsorted].
    destruct (awayFrom09_spec _ _ Haway) as (w & Hlo & Hhi).
    assert (Hord : match rest with [] => True | (next, _) :: _ => change < next end).
    { destruct rest as [|[next ?] ?]; [done|]. by apply Z.ltb_lt in Hsorted. }
    specialize (IH off' day Hrest). cbn zeta in IH. fold x in IH.
    destruct IH as [IHc IHt].
    pose proof (local_after_change rest off' change w) as Hafter.
    pose proof (offsetAt_before off' rest change Hord) as Hfirst.
    unfold c. cbn [offsetOfLocal offsetAt].
    destruct (Z.ltb_spec x (change + Z.max off off')) as [Hx|Hx].
    + assert (day <= w) by (unfold x in Hx; generalize dependent nine; intros; lia).
      assert (x <= w * 86400000 + nine) by (unfold x; lia).
      destruct (Z.ltb_spec (x - off) change); [|lia]. split; [reflexivity|].
      intros t. destruct (Z.ltb_spec t change); [lia|].
      specialize (Hafter t Hrest Hord ltac:(lia) ltac:(lia)). lia.
    + assert (w < day) by (unfold x in Hx; generalize dependent nine; intros; lia).
      assert ((w + 1) * 86400000 + nine <= x) by (unfold x; lia).
      assert (change < x - offsetOfLocal off' rest x) as Hc
        by (apply IHt; rewrite Hfirst; lia).
      destruct (Z.ltb_spec (x - offsetOfLocal off' rest x) change); [lia|].
      split; [exact IHc|].
      intros t. destruct (Z.ltb_spec t change); [lia | apply IHt].
Qed.

Lemma regularZone_regular09 zone day : regularZone zone -> regular09 zone day.
Proof.
  intros Hz. unfold regular09, consistent, LocalTime, UTC, LocalTZA, ES.MakeDate.
  change ES.msPerDay with 86400000.
  destruct (regular09_changes (transitions zone) (initialOffset zone) day Hz) as [Hc Ht].
  cbn zeta in Hc, Ht. split.
  - rewrite Hc. lia.
  - exact Ht.
Qed.

(** A zone that never changes its clock is regular, and reads every 09:00
    with the same offset. *)
Lemma fixedZone_regular offset : regularZone (fixedZone offset).
Proof. reflexivity. Qed.

Lemma fixedZone_sameOffset09 offset day day' : sameOffset09 (fixedZone offset) day day'.
Proof. reflexivity. Qed.

(** ** The [Date] object *)

Section DateFacts.
Variable zone : Zone.

Lemma nine_range : 0 <= nine < ES.msPerDay.
Proof. vm_compute. split; [discriminate | reflexivity]. Qed.

Lemma localDay_timeOfDay t :
  LocalTime zone t = ES.MakeDate (localDay zone t) (timeOfDay zone t).
Proof. unfold localDay, timeOfDay. rewrite MakeDate_Day. reflexivity. Qed.

(** A time value is determined by its local day and local time of day. *)
Lemma local_eq t day time :
  LocalTime zone t = ES.MakeDate day time -> 0 <= time < ES.msPerDay ->
  localDay zone t = day ∧ timeOfDay zone t = time.
Proof.
  intros H Ht. unfold localDay, timeOfDay. rewrite H.
  rewrite Day_MakeDate, TimeWithinDay_MakeDate by exact Ht. split; reflexivity.
Qed.

(** Rebuilding a date from the fields of [d], [k] days later, at 09:00. *)
Lemma newDate_day d k :
  plainYear zone d ->
  newDate zone (getFullYear zone d) (getMonth zone d) (getDate zone d + k) 9 0 0 0
  = UTC zone (ES.MakeDate (localDay zone d + k) nine).
Proof.
  intros Hy. unfold newDate.
  destruct (Z.leb_spec 0 (getFullYear zone d)), (Z.leb_spec (getFullYear zone d) 99);
    cbn [andb]; try (exfalso; apply Hy; lia);
    unfold getFullYear, getMonth, getDate; rewrite MakeDay_fields; reflexivity.
Qed.

Lemma newDate_today d :
  plainYear zone d ->
  newDate zone (getFullYear zone d) (getMonth zone d) (getDate zone d) 9 0 0 0
  = UTC zone (ES.MakeDate (localDay zone d) nine).
Proof.
  intros Hy. pose proof (newDate_day d 0 Hy) as H. rewrite !Z.add_0_r in H. exact H.
Qed.

Lemma setDate_day d k :
  setDate zone d (getDate zone d + k)
  = UTC zone (ES.MakeDate (localDay zone d + k) (timeOfDay zone d)).
Proof. unfold setDate, getDate. rewrite MakeDay_fields. reflexivity. Qed.

Lemma local09 day :
  regular09 zone day ->
  localDay zone (UTC zone (ES.MakeDate day nine)) = day
  ∧ timeOfDay zone (UTC zone (ES.MakeDate day nine)) = nine.
Proof. intros [Hc _]. apply local_eq; [exact Hc | exact nine_range]. Qed.

(** Today's 09:00 is reached exactly when the time of day is 09:00 or more. *)
Lemma candidate_le d :
  plainYear zone d -> regular09 zone (localDay zone d) ->
  (newDate zone (getFullYear zone d) (getMonth zone d) (getDate zone d) 9 0 0 0 <= d
   <-> nine <= timeOfDay zone d).
Proof.
  intros Hy [_ Hr]. pose proof (newDate_day d 0 Hy) as H.
  rewrite !Z.add_0_r in H. rewrite H. specialize (Hr d).
  pose proof (localDay_timeOfDay d) as Hd. revert Hr Hd.
  generalize (UTC zone (ES.MakeDate (localDay zone d) nine)) (LocalTime zone d).
  unfold ES.MakeDate. generalize (timeOfDay zone d) (localDay zone d) nine.
  change ES.msPerDay with 86400000. intros; lia.
Qed.

Lemma next9amTs_before d :
  plainYear zone d -> regular09 zone (localDay zone d) -> timeOfDay zone d < nine ->
  next9amTs zone d
  = newDate zone (getFullYear zone d) (getMonth zone d) (getDate zone d) 9 0 0 0.
Proof.
  intros Hy Hr Hlt. unfold next9amTs, getTime.
  destruct (Z.geb_spec d (newDate zone (getFullYear zone d) (getMonth zone d) (getDate zone d) 9 0 0 0))
    as [Hge|]; [|reflexivity].
  apply candidate_le in Hge; [lia | exact Hy | exact Hr].
Qed.

Lemma next9amTs_after d :
  plainYear zone d -> regular09 zone (localDay zone d) -> nine <= timeOfDay zone d ->
  next9amTs zone d
  = newDate zone (getFullYear zone d) (getMonth zone d) (getDate zone d + 1) 9 0 0 0.
Proof.
  intros Hy Hr Hge. unfold next9amTs, getTime.
  pose proof (candidate_le d Hy Hr) as Hle.
  pose proof (newDate_day d 0 Hy) as Hc. rewrite !Z.add_0_r in Hc.
  rewrite Hc in *.
  destruct (Z.geb_spec d (UTC zone (ES.MakeDate (localDay zone d) nine))) as [_|Hlt]; [|lia].
  rewrite (newDate_day d 1 Hy).
  destruct (local09 (localDay zone d) Hr) as [Hday Htime].
  pose proof (setDate_day (UTC zone (ES.MakeDate (localDay zone d) nine)) 1) as Hs.
  rewrite Hday, Htime in Hs. exact Hs.
Qed.

End DateFacts.

(** C1: in a zone none of whose clock changes crosses 09:00, and in a local
    year that the [Date] constructor takes as written, a [now] whose local time
    of day is before 09:00:00.000 gets today's 09:00:00.000 local time, and a
    [now] at or after 09:00:00.000 gets tomorrow's. *)
Theorem next9amTs_today_or_tomorrow (zone : Zone) (now : Z) :
  plainYear zone now -> regularZone zone ->
  (timeOfDay zone now < nine ->
     next9amTs zone now
     = newDate zone (getFullYear zone now) (getMonth zone now) (getDate zone now) 9 0 0 0
     ∧ localDay zone (next9amTs zone now) = localDay zone now
     ∧ timeOfDay zone (next9amTs zone now) = nine)
  ∧ (nine <= timeOfDay zone now ->
     next9amTs zone now
     = newDate zone (getFullYear zone now) (getMonth zone now) (getDate zone now + 1) 9 0 0 0
     ∧ localDay zone (next9amTs zone now) = localDay zone now + 1
     ∧ timeOfDay zone (next9amTs zone now) = nine).
Proof.
  intros Hy Hz.
  pose proof (regularZone_regular09 zone (localDay zone now) Hz) as Hr.
  pose proof (regularZone_regular09 zone (localDay zone now + 1) Hz) as Hr1.
  split; intros Ht.
  - rewrite (next9amTs_before zone now Hy Hr Ht). split; [reflexivity|].
    pose proof (newDate_day zone now 0 Hy) as H. rewrite !Z.add_0_r in H.
    rewrite H. apply (local09 zone _ Hr).
  - rewrite (next9amTs_after zone now Hy Hr Ht). split; [reflexivity|].
    rewrite (newDate_day zone now 1 Hy). apply (local09 zone _ Hr1).
Qed.

Lemma london_oct25 :
  plainYear london2025 (newDate london2025 2025 9 25 8 0 0 0)
  ∧ plainYear london2025 (newDate london2025 2025 9 25 9 0 0 0)
  ∧ regularZone london2025.
Proof.
  split; [|split; [|reflexivity]];
    intros [_ H]; vm_compute in H; apply H; reflexivity.
Qed.

Lemma next9amTs_today_or_tomorrow_witness :
  (timeOfDay london2025 (newDate london2025 2025 9 25 8 0 0 0) < nine
   ∧ next9amTs london2025 (newDate london2025 2025 9 25 8 0 0 0)
     = newDate london2025 2025 9 25 9 0 0 0)
  ∧ (nine <= timeOfDay london2025 (newDate london2025 2025 9 25 9 0 0 0)
     ∧ next9amTs london2025 (newDate london2025 2025 9 25 9 0 0 0)
       = newDate london2025 2025 9 26 9 0 0 0).
Proof.
  destruct london_oct25 as (H8 & H9 & Hz).
  assert (T8 : timeOfDay london2025 (newDate london2025 2025 9 25 8 0 0 0) < nine)
    by (vm_compute; reflexivity).
  assert (T9 : nine <= timeOfDay london2025 (newDate london2025 2025 9 25 9 0 0 0))
    by (vm_compute; discriminate).
  split; (split; [assumption|]).
  - destruct (next9amTs_today_or_tomorrow london2025 _ H8 Hz) as [Hb _].
    destruct (Hb T8) as [-> _]. vm_compute. reflexivity.
  - destruct (next9amTs_today_or_tomorrow london2025 _ H9 Hz) as [_ Ha].
    destruct (Ha T9) as [-> _]. vm_compute. reflexivity.
Defined.

(** ** The day selector *)

Section Selector.
Variable zone : Zone.

Lemma start9_value :
  start9 zone = Some (UTC zone (ES.MakeDate (ES.MakeDay 2025 8 1) nine)).
Proof. reflexivity. Qed.

Lemma today9_value now :
  plainYear zone now -> today9 zone now = UTC zone (ES.MakeDate (localDay zone now) nine).
Proof.
  intros Hy. pose proof (newDate_day zone now 0 Hy) as H.
  rewrite !Z.add_0_r in H. exact H.
Qed.

Lemma boundaryNow_cases now :
  plainYear zone now -> regular09 zone (localDay zone now) ->
  boundaryNow zone now
  = if timeOfDay zone now <? nine then today9 zone now - 24 * 3600 * 1000
    else today9 zone now.
Proof.
  intros Hy Hr. unfold boundaryNow, getTime, today9.
  pose proof (candidate_le zone now Hy Hr) as Hc. revert Hc.
  generalize (newDate zone (getFullYear zone now) (getMonth zone now) (getDate zone now) 9 0 0 0).
  generalize (timeOfDay zone now) nine. intros T n c Hc.
  destruct (Z.geb_spec now c), (Z.ltb_spec T n); try reflexivity; lia.
Qed.

(** The day number as the code computes it, with the branch that the local
    time of day decides. *)
Lemma days_cases now :
  plainYear zone now -> regular09 zone (localDay zone now) ->
  days zone now
  = Some (((if timeOfDay zone now <? nine then today9 zone now - 24 * 3600 * 1000
            else today9 zone now)
           - UTC zone (ES.MakeDate (ES.MakeDay 2025 8 1) nine)) / (24 * 3600 * 1000)).
Proof.
  intros Hy Hr. unfold days. rewrite start9_value. cbn [mbind option_bind].
  rewrite (boundaryNow_cases now Hy Hr). reflexivity.
Qed.

(** When the first window's 09:00 and today's are read with the same offset,
    the day number counts local 09:00 to 09:00 windows. *)
Lemma days_value now :
  plainYear zone now -> regular09 zone (localDay zone now) ->
  sameOffset09 zone (ES.MakeDay 2025 8 1) (localDay zone now) ->
  days zone now
  = Some (localDay zone now - (if timeOfDay zone now <? nine then 1 else 0)
          - ES.MakeDay 2025 8 1).
Proof.
  intros Hy Hr Hs. rewrite (days_cases now Hy Hr). f_equal.
  rewrite (today9_value now Hy). unfold UTC. unfold sameOffset09 in Hs. rewrite Hs.
  generalize (LocalTZA zone (ES.MakeDate (localDay zone now) nine) false).
  unfold ES.MakeDate. generalize (localDay zone now) (ES.MakeDay 2025 8 1).
  intros D D0 o. generalize nine. intros n.
  change ES.msPerDay with 86400000. change (24 * 3600 * 1000) with 86400000.
  destruct (timeOfDay zone now <? n); zlia.
Qed.

Lemma days_is_Some now : is_Some (days zone now).
Proof. unfold days. rewrite start9_value. cbn [mbind option_bind]. eauto. Qed.

End Selector.

(** [idx] is the remainder of the floored division. *)
Lemma pickIdx_mod days N : 0 < N -> pickIdx days N = days mod N.
Proof.
  intros HN. unfold pickIdx.
  destruct (Z.ltb_spec 0 N); [|lia].
  pose proof (Z.rem_bound_abs days N ltac:(lia)) as Hb.
  pose proof (Z.quot_rem' days N) as Hq.
  rewrite Z.rem_mod_nonneg by lia.
  replace (Z.rem days N + N) with (days + (1 - days ÷ N) * N) by lia.
  apply Z_mod_plus_full.
Qed.

Lemma specIndex_mod days N : 0 < N -> specIndex days N = days mod N.
Proof.
  intros HN. unfold specIndex.
  replace (days mod N + N) with (days mod N + 1 * N) by lia.
  rewrite Z_mod_plus_full. apply Z.mod_mod. lia.
Qed.

Lemma pickDrugForToday_lookup zone now (list : list Drug.t) dy :
  days zone now = Some dy -> list ≠ [] ->
  pickDrugForToday zone now list = list !! Z.to_nat (pickIdx dy (Z.of_nat (length list))).
Proof.
  intros Hd Hne. unfold pickDrugForToday. rewrite Hd.
  assert (0 < Z.of_nat (length list)) as Hlen by (destruct list; [done | cbn; lia]).
  destruct (Z.ltb_spec 0 (Z.of_nat (length list))); [|lia].
  unfold arrayGet.
  pose proof (Z.mod_pos_bound dy _ Hlen). rewrite pickIdx_mod by lia.
  destruct (Z.ltb_spec (dy mod Z.of_nat (length list)) 0); [lia | reflexivity].
Qed.

Lemma sep3_plainYear :
  plainYear utcZone (sep3_10h utcZone) ∧ plainYear utcZone (sep3_08h utcZone).
Proof. split; intros [_ H]; vm_compute in H; apply H; reflexivity. Qed.

Lemma sep3_days :
  days utcZone (sep3_10h utcZone) = Some 2 ∧ days utcZone (sep3_08h utcZone) = Some 1.
Proof. split; vm_compute; reflexivity. Qed.

(** An instant whose local clock shows a given time on 2025-09-03. *)
Lemma on_sep3 zone now time :
  LocalTime zone now = ES.MakeDate (ES.MakeDay 2025 8 3) time -> 0 <= time < ES.msPerDay ->
  plainYear zone now ∧ localDay zone now = ES.MakeDay 2025 8 3 ∧ timeOfDay zone now = time.
Proof.
  intros H Ht. destruct (local_eq zone now _ _ H Ht) as [Hd Hti].
  split; [|split; [exact Hd | exact Hti]].
  unfold plainYear, getFullYear, ES.YearFromTime. fold (localDay zone now). rewrite Hd.
  intros [_ Hy]. vm_compute in Hy. apply Hy. reflexivity.
Qed.

(** C2: in a zone none of whose clock changes crosses 09:00, before today's
    local 09:00 the selector counts days up to 24 hours before today's 09:00,
    and from 09:00 on up to today's; where the first window's 09:00 and
    today's are read with the same offset that is the number of local days
    since 2025-09-01, less one before 09:00. With three content items and no
    clock change from 2025-09-01 to 2025-09-03, 2025-09-03 10:00 selects
    index 2 and 2025-09-03 08:00 index 1. *)
Theorem pickDrugForToday_day_window (zone : Zone) :
  regularZone zone ->
  (∀ now, plainYear zone now ->
     (timeOfDay zone now < nine ->
        boundaryNow zone now = today9 zone now - 24 * 3600 * 1000
        ∧ days zone now
          = Some ((today9 zone now - 24 * 3600 * 1000
                   - UTC zone (ES.MakeDate (ES.MakeDay 2025 8 1) nine)) / (24 * 3600 * 1000)))
     ∧ (nine <= timeOfDay zone now ->
        boundaryNow zone now = today9 zone now
        ∧ days zone now
          = Some ((today9 zone now
                   - UTC zone (ES.MakeDate (ES.MakeDay 2025 8 1) nine)) / (24 * 3600 * 1000)))
     ∧ (sameOffset09 zone (ES.MakeDay 2025 8 1) (localDay zone now) ->
        days zone now
        = Some (localDay zone now - (if timeOfDay zone now <? nine then 1 else 0)
                - ES.MakeDay 2025 8 1)))
  ∧ (∀ now (d0 d1 d2 : Drug.t),
       sameOffset09 zone (ES.MakeDay 2025 8 1) (ES.MakeDay 2025 8 3) ->
       (LocalTime zone now = ES.MakeDate (ES.MakeDay 2025 8 3) (ES.MakeTime 10 0 0 0) ->
          days zone now = Some 2 ∧ pickIdx 2 3 = 2
          ∧ pickDrugForToday zone now [d0; d1; d2] = Some d2)
       ∧ (LocalTime zone now = ES.MakeDate (ES.MakeDay 2025 8 3) (ES.MakeTime 8 0 0 0) ->
          days zone now = Some 1 ∧ pickIdx 1 3 = 1
          ∧ pickDrugForToday zone now [d0; d1; d2] = Some d1)).
Proof.
  intros Hz. split.
  - intros now Hy.
    pose proof (regularZone_regular09 zone (localDay zone now) Hz) as Hr.
    pose proof (boundaryNow_cases zone now Hy Hr) as Hb.
    pose proof (days_cases zone now Hy Hr) as Hd.
    split; [|split].
    + intros Ht. destruct (Z.ltb_spec (timeOfDay zone now) nine); [|lia].
      split; [exact Hb | exact Hd].
    + intros Ht. destruct (Z.ltb_spec (timeOfDay zone now) nine); [lia|].
      split; [exact Hb | exact Hd].
    + intros Hs. exact (days_value zone now Hy Hr Hs).
  - intros now d0 d1 d2 Hs.
    assert (Hday : ∀ time, LocalTime zone now = ES.MakeDate (ES.MakeDay 2025 8 3) time ->
                     0 <= time < ES.msPerDay ->
                     days zone now
                     = Some (ES.MakeDay 2025 8 3 - (if time <? nine then 1 else 0)
                             - ES.MakeDay 2025 8 1)).
    { intros time Hl Ht. destruct (on_sep3 zone now time Hl Ht) as (Hy & Hd & Hti).
      pose proof (regularZone_regular09 zone (localDay zone now) Hz) as Hr.
      rewrite (days_value zone now Hy Hr); rewrite Hd, ?Hti; [reflexivity | exact Hs]. }
    split; intros Hl.
    + assert (H2 : days zone now = Some 2).
      { rewrite (Hday _ Hl); [reflexivity | vm_compute; split; [discriminate | reflexivity]]. }
      split; [exact H2|]. split; [reflexivity|].
      rewrite (pickDrugForToday_lookup zone _ _ 2 H2); [reflexivity | discriminate].
    + assert (H1 : days zone now = Some 1).
      { rewrite (Hday _ Hl); [reflexivity | vm_compute; split; [discriminate | reflexivity]]. }
      split; [exact H1|]. split; [reflexivity|].
      rewrite (pickDrugForToday_lookup zone _ _ 1 H1); [reflexivity | discriminate].
Qed.

Lemma pickDrugForToday_day_window_witness :
  (timeOfDay sydney2025 (sep3_08h sydney2025) < nine
   ∧ boundaryNow sydney2025 (sep3_08h sydney2025) = newDate sydney2025 2025 8 2 9 0 0 0
   ∧ days sydney2025 (sep3_08h sydney2025) = Some 1)
  ∧ (nine <= timeOfDay sydney2025 (newDate sydney2025 2025 11 3 10 0 0 0)
     ∧ days sydney2025 (newDate sydney2025 2025 11 3 10 0 0 0) = Some 92).
Proof.
  assert (Hz : regularZone sydney2025) by reflexivity.
  assert (Y8 : plainYear sydney2025 (sep3_08h sydney2025))
    by (intros [_ H]; vm_compute in H; apply H; reflexivity).
  assert (Yd : plainYear sydney2025 (newDate sydney2025 2025 11 3 10 0 0 0))
    by (intros [_ H]; vm_compute in H; apply H; reflexivity).
  assert (T8 : timeOfDay sydney2025 (sep3_08h sydney2025) < nine) by (vm_compute; reflexivity).
  assert (Td : nine <= timeOfDay sydney2025 (newDate sydney2025 2025 11 3 10 0 0 0))
    by (vm_compute; discriminate).
  destruct (pickDrugForToday_day_window sydney2025 Hz) as [H _].
  destruct (H _ Y8) as (Hb & _ & _). destruct (Hb T8) as [Hb1 Hb2].
  destruct (H _ Yd) as (_ & Ha & _). destruct (Ha Td) as [_ Ha2].
  split; (split; [assumption|]).
  - split; [rewrite Hb1 | rewrite Hb2]; vm_compute; reflexivity.
  - rewrite Ha2. vm_compute. reflexivity.
Defined.

(** C3, as the code has it: on an empty content array the selector raises
    nothing and returns [undefined], and mounting the component then fails
    with a [TypeError] when it reads [drug.anchors]. *)
Theorem pickDrugForToday_empty (zone : Zone) (now : Z) (storage : gmap string string) :
  pickDrugForToday zone now [] = None
  ∧ mount zone now [] storage = Throw "TypeError".
Proof.
  assert (pickDrugForToday zone now [] = None) as H.
  { unfold pickDrugForToday. destruct (days zone now); reflexivity. }
  split; [exact H|]. unfold mount. rewrite H. reflexivity.
Qed.

(** C3 as stated fails: the failure on empty content is not an
    [EmptyContentError], and the selector itself returns normally. *)
Lemma pickDrugForToday_empty_counterexample :
  pickDrugForToday utcZone 0 [] = None
  ∧ ¬ failsWith (mount utcZone 0 [] ∅) "EmptyContentError".
Proof.
  split; [reflexivity|]. unfold failsWith. vm_compute. discriminate.
Qed.

(** C4: for every integer day count and every positive length the index is
    ((days mod N) + N) mod N, lies in [0, N), and is the position of the item
    the selector returns. *)
Theorem pickIdx_spec (daysSinceEpoch N : Z) :
  0 < N ->
  pickIdx daysSinceEpoch N = specIndex daysSinceEpoch N
  ∧ 0 <= pickIdx daysSinceEpoch N < N
  ∧ (∀ zone now (list : list Drug.t), Z.of_nat (length list) = N ->
       ∃ dy item, days zone now = Some dy
         ∧ list !! Z.to_nat (pickIdx dy N) = Some item
         ∧ pickDrugForToday zone now list = Some item).
Proof.
  intros HN. rewrite pickIdx_mod, specIndex_mod by exact HN.
  split; [reflexivity|]. split; [apply Z.mod_pos_bound; exact HN|].
  intros zone now list Hlen.
  destruct (days_is_Some zone now) as [dy Hd].
  assert (list ≠ []) as Hne by (intros ->; cbn in Hlen; lia).
  pose proof (Z.mod_pos_bound dy N HN) as Hb.
  destruct (lookup_lt_is_Some_2 list (Z.to_nat (pickIdx dy N))) as [item Hi].
  { rewrite pickIdx_mod by exact HN. lia. }
  exists dy, item. split; [exact Hd|]. split; [exact Hi|].
  rewrite (pickDrugForToday_lookup zone now list dy Hd Hne), Hlen. exact Hi.
Qed.

Lemma pickIdx_spec_witness :
  pickIdx (-31) 7 = specIndex (-31) 7 ∧ 0 <= pickIdx (-31) 7 < 7 ∧ pickIdx (-31) 7 = 4.
Proof.
  destruct (pickIdx_spec (-31) 7 ltac:(reflexivity)) as (H1 & H2 & _).
  split; [exact H1|]. split; [exact H2|]. reflexivity.
Defined.

(** ** Sets and the scorer *)

Lemma JSSet_has_true s v : JSSet.has s v = true <-> v ∈ s.
Proof. unfold JSSet.has. apply bool_decide_eq_true. Qed.

Lemma JSSet_has_false s v : JSSet.has s v = false <-> v ∉ s.
Proof. unfold JSSet.has. apply bool_decide_eq_false. Qed.

Lemma JSSet_add_elem s v x : x ∈ JSSet.add s v <-> x ∈ s ∨ x = v.
Proof.
  unfold JSSet.add. destruct (JSSet.has s v) eqn:E.
  - apply JSSet_has_true in E. split; [by left | intros [H| ->]; done].
  - rewrite elem_of_app, list_elem_of_singleton. done.
Qed.

Lemma JSSet_add_NoDup s v : NoDup s -> NoDup (JSSet.add s v).
Proof.
  intros Hs. unfold JSSet.add. destruct (JSSet.has s v) eqn:E; [done|].
  apply JSSet_has_false in E. apply NoDup_app. split; [done|]. split.
  - intros x Hx ->%list_elem_of_singleton. done.
  - apply NoDup_singleton.
Qed.

Lemma JSSet_delete_elem s v x : x ∈ JSSet.delete s v <-> x ∈ s ∧ x ≠ v.
Proof. unfold JSSet.delete. rewrite list_elem_of_filter. tauto. Qed.

Lemma JSSet_delete_NoDup s v : NoDup s -> NoDup (JSSet.delete s v).
Proof. apply NoDup_filter. Qed.

Lemma fold_add_spec array acc :
  NoDup acc ->
  NoDup (fold_left JSSet.add array acc)
  ∧ ∀ x, x ∈ fold_left JSSet.add array acc <-> x ∈ acc ∨ x ∈ array.
Proof.
  revert acc. induction array as [|v array IH]; intros acc Hacc; cbn.
  - split; [done|]. intros x. rewrite elem_of_nil. tauto.
  - destruct (IH (JSSet.add acc v) (JSSet_add_NoDup _ _ Hacc)) as [Hnd Hel].
    split; [done|]. intros x. rewrite Hel, JSSet_add_elem, elem_of_cons. tauto.
Qed.

(** [new Set(array)] has the elements of the array, each once. *)
Lemma JSSet_new_elem array x : x ∈ JSSet.new array <-> x ∈ array.
Proof.
  unfold JSSet.new. destruct (fold_add_spec array [] (NoDup_nil_2)) as [_ H].
  rewrite H, elem_of_nil. tauto.
Qed.

Lemma JSSet_new_NoDup array : NoDup (JSSet.new array).
Proof. unfold JSSet.new. apply (fold_add_spec array [] (NoDup_nil_2)). Qed.

Lemma JSSet_has_new array v : JSSet.has (JSSet.new array) v = bool_decide (v ∈ array).
Proof. unfold JSSet.has. apply bool_decide_ext, JSSet_new_elem. Qed.

(** On sets, [setsEqual] decides equality of the two sets of elements. *)
Lemma setsEqual_spec a b :
  NoDup a -> NoDup b -> (setsEqual a b = true <-> ∀ x, x ∈ a <-> x ∈ b).
Proof.
  intros Ha Hb. unfold setsEqual, JSSet.size. split.
  - destruct (Nat.eqb_spec (length a) (length b)) as [Hlen|]; [cbn|done].
    intros Hall. rewrite forallb_forall in Hall.
    assert (a ⊆+ b) as Hsub.
    { apply NoDup_submseteq; [done|]. intros x Hx.
      apply JSSet_has_true, Hall, list_elem_of_In, Hx. }
    assert (a ≡ₚ b) as Hp by (apply submseteq_length_Permutation; [done | lia]).
    intros x. by rewrite Hp.
  - intros Hiff.
    assert (a ≡ₚ b) as Hp by (by apply NoDup_Permutation).
    rewrite (Permutation_length Hp), Nat.eqb_refl. cbn.
    apply forallb_forall. intros x Hx.
    apply JSSet_has_true, Hiff, list_elem_of_In, Hx.
Qed.

Lemma asSet_eq (l k : list string) : asSet l = asSet k <-> ∀ x, x ∈ l <-> x ∈ k.
Proof.
  unfold asSet. split.
  - intros H x. rewrite <- !(elem_of_list_to_set (C:=gset string)). by rewrite H.
  - intros H. apply set_eq. intros x. rewrite !elem_of_list_to_set. apply H.
Qed.

Lemma elem_of_idSet (l : list Option.t) x : x ∈ idSet l <-> ∃ o, o ∈ l ∧ Option.id o = x.
Proof.
  unfold idSet. rewrite elem_of_list_to_set, list_elem_of_fmap.
  split; intros (o & H1 & H2); exists o; split; done.
Qed.

(** C5: an anchor is marked correct exactly when the selected ids and the
    correct ids are the same set; [missed] holds the options that are correct
    and not selected, [wrong] those selected and not correct, so that, the
    ids being option ids, their ids are correct minus selected and selected
    minus correct. *)
Theorem scoreAnchor_sets (answers : gmap string (list string)) (a : Anchor.t) :
  let r := scoreAnchor answers a in
  let sel := answersFor answers (Anchor.id a) in
  let cor := Anchor.correct a in
  (correct r = true <-> asSet sel = asSet cor)
  ∧ (∀ o, o ∈ missed r <-> o ∈ Anchor.options a ∧ Option.id o ∈ cor ∧ Option.id o ∉ sel)
  ∧ (∀ o, o ∈ wrong r <-> o ∈ Anchor.options a ∧ Option.id o ∈ sel ∧ Option.id o ∉ cor)
  ∧ (cor ⊆ optionIds a -> idSet (missed r) = asSet cor ∖ asSet sel)
  ∧ (sel ⊆ optionIds a -> idSet (wrong r) = asSet sel ∖ asSet cor).
Proof.
  intros r sel cor.
  assert (Hm : ∀ o, o ∈ missed r <-> o ∈ Anchor.options a ∧ Option.id o ∈ cor ∧ Option.id o ∉ sel).
  { intros o. unfold r, scoreAnchor; cbn [missed].
    rewrite list_elem_of_filter, !JSSet_has_new, andb_True, negb_True, !bool_decide_spec.
    fold sel cor. tauto. }
  assert (Hw : ∀ o, o ∈ wrong r <-> o ∈ Anchor.options a ∧ Option.id o ∈ sel ∧ Option.id o ∉ cor).
  { intros o. unfold r, scoreAnchor; cbn [wrong].
    rewrite list_elem_of_filter, !JSSet_has_new, andb_True, negb_True, !bool_decide_spec.
    fold sel cor. tauto. }
  split; [|split; [exact Hm | split; [exact Hw | split]]].
  - unfold r, scoreAnchor; cbn [correct].
    rewrite setsEqual_spec by apply JSSet_new_NoDup.
    rewrite asSet_eq. fold sel cor.
    split; intros H x; specialize (H x); rewrite ?JSSet_new_elem in *; exact H.
  - intros Hsub. apply set_eq. intros x.
    rewrite elem_of_idSet, elem_of_difference. unfold asSet.
    rewrite !elem_of_list_to_set. split.
    + intros (o & Ho & <-). apply Hm in Ho. tauto.
    + intros [Hc Hs]. specialize (Hsub x Hc).
      apply list_elem_of_fmap in Hsub as (o & -> & Ho).
      exists o. split; [apply Hm; tauto | done].
  - intros Hsub. apply set_eq. intros x.
    rewrite elem_of_idSet, elem_of_difference. unfold asSet.
    rewrite !elem_of_list_to_set. split.
    + intros (o & Ho & <-). apply Hw in Ho. tauto.
    + intros [Hs Hc]. specialize (Hsub x Hs).
      apply list_elem_of_fmap in Hsub as (o & -> & Ho).
      exists o. split; [apply Hw; tauto | done].
Qed.

Lemma scoreAnchor_sets_witness :
  let answers := <["indications"%string := ["angina"; "htn"]%string]> emptyAnswers in
  let r := scoreAnchor answers anchor_indications in
  correct r = false
  ∧ idSet (missed r) = asSet ["hfrEF"; "postmi"; "ckd"]%string
  ∧ idSet (wrong r) = asSet ["angina"]%string.
Proof.
  intros answers r.
  assert (Hc : Anchor.correct anchor_indications ⊆ optionIds anchor_indications)
    by (refine (bool_decide_unpack _ _); vm_compute; exact I).
  assert (Hs : answersFor answers (Anchor.id anchor_indications) ⊆ optionIds anchor_indications)
    by (refine (bool_decide_unpack _ _); vm_compute; exact I).
  destruct (scoreAnchor_sets answers anchor_indications) as (_ & _ & _ & Hm & Hw).
  split; [vm_compute; reflexivity|]. split.
  - unfold r. rewrite (Hm Hc). vm_compute. reflexivity.
  - unfold r. rewrite (Hw Hs). vm_compute. reflexivity.
Defined.

(** ** Numbers, strings and the ISO day *)

Lemma Number_String_ n : Number (String_ n) = n.
Proof.
  destruct n as [|z]; [reflexivity|]. unfold Number, String_.
  rewrite DecimalString.NilZero.isi.
  - by rewrite DecimalZ.of_to.
  - destruct z; cbn; [discriminate| |discriminate].
    intros [= H]. by apply DecimalPos.Unsigned.to_uint_nonnil in H.
  - destruct z; cbn; [discriminate|discriminate|].
    intros [= H]. by apply DecimalPos.Unsigned.to_uint_nonnil in H.
Qed.

Lemma String__nonempty n : String_ n ≠ ""%string.
Proof.
  intros H. pose proof (Number_String_ n) as Hn. rewrite H in Hn.
  cbn in Hn. subst n. discriminate.
Qed.

Lemma orElse_String_ n b : orElse (Some (String_ n)) b = String_ n.
Proof. unfold orElse. destruct (decide _) as [H|]; [by apply String__nonempty in H | done]. Qed.

Lemma string_app_length (a b : string) :
  String.length (a ++ b) = (String.length a + String.length b)%nat.
Proof. induction a as [|c a IH]; simpl; [done | by rewrite IH]. Qed.

Lemma string_app_inj_length (a a' b b' : string) :
  String.length a = String.length a' -> (a ++ b = a' ++ b')%string -> a = a' ∧ b = b'.
Proof.
  revert a'. induction a as [|c a IH]; intros [|c' a'] Hlen; simpl in *; try done.
  intros [= -> H]. destruct (IH a') as [-> ->]; [lia | done | done].
Qed.

Lemma date_key_inj (a a' b b' c c' : string) :
  String.length a = String.length a' -> String.length b = String.length b' ->
  (a ++ "-" ++ b ++ "-" ++ c = a' ++ "-" ++ b' ++ "-" ++ c')%string ->
  a = a' ∧ b = b' ∧ c = c'.
Proof.
  intros Ha Hb H.
  destruct (string_app_inj_length a a' _ _ Ha H) as [-> H1].
  simpl in H1. injection H1 as H1.
  destruct (string_app_inj_length b b' _ _ Hb H1) as [-> H2].
  simpl in H2. injection H2 as H2. done.
Qed.

Lemma pad_length w n : String.length (pad w n) = w.
Proof.
  revert n. induction w as [|w IH]; intros n; simpl; [done|].
  rewrite string_app_length, IH. simpl. lia.
Qed.

Lemma digitChar_inj n m : digitChar n = digitChar m -> n mod 10 = m mod 10.
Proof.
  unfold digitChar. intros H. apply (f_equal nat_of_ascii) in H.
  rewrite !nat_ascii_embedding in H by zlia. zlia.
Qed.

(** Zero-padded decimals of a fixed width determine the number. *)
Lemma pad_inj w n m :
  0 <= n < 10 ^ Z.of_nat w -> 0 <= m < 10 ^ Z.of_nat w -> pad w n = pad w m -> n = m.
Proof.
  revert n m. induction w as [|w IH]; intros n m Hn Hm H.
  - cbn in Hn, Hm. lia.
  - rewrite Nat2Z.inj_succ, Z.pow_succ_r in Hn, Hm by lia. cbn in H.
    destruct (string_app_inj_length (pad w (n / 10)) (pad w (m / 10)) _ _
                ltac:(by rewrite !pad_length) H) as [H1 [= H2]].
    apply digitChar_inj in H2. apply IH in H1; zlia.
Qed.

Lemma YearFromDay_mono d d' : d <= d' -> ES.YearFromDay d <= ES.YearFromDay d'.
Proof.
  intros H. apply YearFromDay_largest. pose proof (YearFromDay_spec d). lia.
Qed.

Lemma Day_yesterday t : ES.Day (t - 24 * 3600 * 1000) = ES.Day t - 1.
Proof. unfold ES.Day, ES.msPerDay. zlia. Qed.

(** For a four-digit year the first ten characters are the calendar date. *)
Lemma isoDay_fields t :
  0 <= ES.YearFromTime t <= 9999 ->
  isoDay t = (pad 4 (ES.YearFromTime t) ++ "-" ++ pad 2 (ES.MonthFromTime t + 1)
              ++ "-" ++ pad 2 (ES.DateFromTime t))%string.
Proof.
  intros Hy. unfold isoDay, slice0, toISOString.
  destruct (Z.leb_spec 0 (ES.YearFromTime t)), (Z.leb_spec (ES.YearFromTime t) 9999);
    try lia. reflexivity.
Qed.

(** Within the four-digit years, the ISO day tells UTC calendar days apart. *)
Lemma isoDay_inj t t' :
  0 <= ES.YearFromTime t <= 9999 -> 0 <= ES.YearFromTime t' <= 9999 ->
  isoDay t = isoDay t' -> ES.Day t = ES.Day t'.
Proof.
  intros Hy Hy' H. rewrite !isoDay_fields in H by done.
  destruct (date_key_inj (pad 4 _) (pad 4 _) (pad 2 _) (pad 2 _) (pad 2 _) (pad 2 _)
              ltac:(by rewrite !pad_length) ltac:(by rewrite !pad_length) H)
    as (Hyear & Hmonth & Hdate).
  pose proof (MonthFromTime_range t). pose proof (MonthFromTime_range t').
  pose proof (DateFromTime_range t). pose proof (DateFromTime_range t').
  apply pad_inj in Hyear; [|cbn; lia..].
  apply pad_inj in Hmonth; [|cbn; lia..].
  apply pad_inj in Hdate; [|cbn; lia..].
  pose proof (MakeDay_fields t 0) as E. pose proof (MakeDay_fields t' 0) as E'.
  rewrite Z.add_0_r in E, E'.
  replace (ES.MonthFromTime t) with (ES.MonthFromTime t') in E by lia.
  rewrite Hyear, Hdate, E' in E. lia.
Qed.

Lemma today_ne_yesterday now :
  fourDigitYears now -> isoDay now ≠ isoDay (now - 24 * 3600 * 1000).
Proof.
  intros [Hlo Hhi] H.
  pose proof (YearFromDay_mono (ES.Day (now - 24 * 3600 * 1000)) (ES.Day now)) as Hm.
  pose proof (Day_yesterday now) as Hd.
  unfold ES.YearFromTime in *.
  apply isoDay_inj in H; unfold ES.YearFromTime; lia.
Qed.

(** ** The streak *)

Lemma setStreak_same s v : streak s = v -> setStreak v s = s.
Proof. intros <-. by destruct s. Qed.

Lemma streakEffect_not_today now s :
  showResults s = true -> getItem "dotd_last" s ≠ Some (isoDay now) ->
  streakEffect now s
  = let streakVal := Number (orElse (getItem "dotd_streak" s) "0") in
    let streakVal :=
      if decide (getItem "dotd_last" s = Some (isoDay (now - 24 * 3600 * 1000)))
      then succ streakVal else Int 1 in
    setStreak streakVal
      (setItem "dotd_last" (isoDay now) (setItem "dotd_streak" (String_ streakVal) s)).
Proof.
  intros Hr Hne. unfold streakEffect. rewrite Hr. cbn [negb].
  destruct (decide (getItem "dotd_last" s ≠ Some (isoDay now))); [reflexivity | done].
Qed.

Lemma streakEffect_today now s :
  showResults s = true -> getItem "dotd_last" s = Some (isoDay now) ->
  streakEffect now s = setStreak (Number (orElse (getItem "dotd_streak" s) "0")) s.
Proof.
  intros Hr He. unfold streakEffect. rewrite Hr. cbn [negb].
  destruct (decide (getItem "dotd_last" s ≠ Some (isoDay now))); [done | reflexivity].
Qed.

(** After the effect ran, the stored date is today's and the streak shown is
    the stored one. *)
Lemma streakEffect_stored now s :
  showResults s = true ->
  let s' := streakEffect now s in
  showResults s' = true
  ∧ getItem "dotd_last" s' = Some (isoDay now)
  ∧ Number (orElse (getItem "dotd_streak" s') "0") = streak s'.
Proof.
  intros Hr. cbn zeta.
  destruct (decide (getItem "dotd_last" s = Some (isoDay now))) as [He|Hne].
  - rewrite (streakEffect_today now s Hr He). by destruct s.
  - rewrite (streakEffect_not_today now s Hr Hne). cbn zeta.
    set (v := if decide _ then _ else _).
    unfold getItem, setStreak, setItem; cbn.
    rewrite lookup_insert_eq, lookup_insert_ne, lookup_insert_eq by done.
    by rewrite orElse_String_, Number_String_.
Qed.

(** C6: with [old] the stored streak, the effect leaves the streak at [old]
    and the store untouched when the stored date is today's, stores [old + 1]
    when it is yesterday's and 1 otherwise, and running it again on the same
    day changes nothing. *)
Theorem streakEffect_rules (now : Z) (s : State) :
  showResults s = true -> fourDigitYears now ->
  let s' := streakEffect now s in
  let lastDone := getItem "dotd_last" s in
  let old := Number (orElse (getItem "dotd_streak" s) "0") in
  let today := isoDay now in
  let yesterday := isoDay (now - 24 * 3600 * 1000) in
  (lastDone = Some today -> streak s' = old ∧ localStorage s' = localStorage s)
  ∧ (lastDone = Some yesterday ->
       streak s' = succ old
       ∧ getItem "dotd_streak" s' = Some (String_ (succ old))
       ∧ getItem "dotd_last" s' = Some today)
  ∧ (lastDone ≠ Some today -> lastDone ≠ Some yesterday ->
       streak s' = Int 1
       ∧ getItem "dotd_streak" s' = Some "1"%string
       ∧ getItem "dotd_last" s' = Some today)
  ∧ (∀ now', isoDay now' = today -> streakEffect now' s' = s').
Proof.
  intros Hr Hy s' lastDone old today yesterday.
  pose proof (today_ne_yesterday now Hy) as Hty. fold today yesterday in Hty.
  split; [|split; [|split]].
  - intros He. unfold s'. rewrite (streakEffect_today now s Hr He). by destruct s.
  - intros He.
    assert (lastDone ≠ Some today) as Hne by (rewrite He; congruence).
    unfold s'. rewrite (streakEffect_not_today now s Hr Hne). cbn zeta.
    fold lastDone yesterday old. destruct (decide (lastDone = Some yesterday)); [|done].
    unfold getItem, setStreak, setItem; cbn.
    rewrite lookup_insert_eq, lookup_insert_ne, lookup_insert_eq by done. done.
  - intros Hne Hny.
    unfold s'. rewrite (streakEffect_not_today now s Hr Hne). cbn zeta.
    fold lastDone yesterday old. destruct (decide (lastDone = Some yesterday)); [done|].
    unfold getItem, setStreak, setItem; cbn.
    rewrite lookup_insert_eq, lookup_insert_ne, lookup_insert_eq by done. done.
  - intros now' Hnow'.
    destruct (streakEffect_stored now s Hr) as (Hr' & Hlast & Hnum). fold s' in Hr', Hlast, Hnum.
    rewrite (streakEffect_today now' s' Hr'); [|by rewrite Hnow'].
    by apply setStreak_same.
Qed.

Lemma streakEffect_rules_witness :
  getItem "dotd_last" streakState = Some (isoDay (sep3_10h utcZone - 24 * 3600 * 1000))
  ∧ streak (streakEffect (sep3_10h utcZone) streakState) = Int 5
  ∧ getItem "dotd_streak" (streakEffect (sep3_10h utcZone) streakState) = Some "5"%string
  ∧ getItem "dotd_last" (streakEffect (sep3_10h utcZone) streakState) = Some "2025-09-03"%string.
Proof.
  assert (Hy : fourDigitYears (sep3_10h utcZone)) by (vm_compute; split; discriminate).
  assert (He : getItem "dotd_last" streakState
               = Some (isoDay (sep3_10h utcZone - 24 * 3600 * 1000))) by (vm_compute; reflexivity).
  destruct (streakEffect_rules (sep3_10h utcZone) streakState eq_refl Hy) as (_ & H & _).
  destruct (H He) as (H1 & H2 & H3).
  split; [exact He|]. rewrite H1, H2, H3. repeat split.
Defined.

(** ** The quiz state machine *)

Lemma streakEffect_frame now s :
  idx (streakEffect now s) = idx s
  ∧ answers (streakEffect now s) = answers s
  ∧ secondsLeftBy (streakEffect now s) = secondsLeftBy s
  ∧ showResults (streakEffect now s) = showResults s
  ∧ showCompleted (streakEffect now s) = showCompleted s
  ∧ nextAt (streakEffect now s) = nextAt s.
Proof.
  unfold streakEffect. destruct (showResults s) eqn:Hr; cbn [negb]; [|by rewrite Hr].
  destruct (decide _); cbn; by rewrite Hr.
Qed.

Lemma streakEffect_quiz now s : showResults s = false -> streakEffect now s = s.
Proof. intros Hr. unfold streakEffect. by rewrite Hr. Qed.

Lemma initialTimes_values drug id v : initialTimes drug !! id = Some v -> v = 35.
Proof.
  unfold initialTimes.
  assert (∀ (l : list Anchor.t) (acc : gmap string Z),
            (∀ v, acc !! id = Some v -> v = 35) ->
            fold_left (λ d a, <[Anchor.id a := 35]> d) l acc !! id = Some v -> v = 35) as H.
  { induction l as [|a l IH]; intros acc Hacc; cbn; [apply Hacc|].
    apply IH. intros w. rewrite lookup_insert. case_decide; [congruence | apply Hacc]. }
  apply H. intros w. by rewrite lookup_empty.
Qed.

(** Every anchor of the drug starts with 35 seconds. *)
Lemma initialTimes_anchor drug a :
  a ∈ Drug.anchors drug -> initialTimes drug !! Anchor.id a = Some 35.
Proof.
  unfold initialTimes.
  assert (∀ (l : list Anchor.t) (acc : gmap string Z),
            a ∈ l ∨ acc !! Anchor.id a = Some 35 ->
            fold_left (λ d a, <[Anchor.id a := 35]> d) l acc !! Anchor.id a = Some 35) as H.
  { induction l as [|b l IH]; intros acc Hacc; cbn.
    - destruct Hacc as [Hin|]; [by apply elem_of_nil in Hin | done].
    - apply IH. destruct Hacc as [Hin|Hacc].
      + apply elem_of_cons in Hin as [->|]; [right; apply lookup_insert_eq | by left].
      + right. rewrite lookup_insert. by case_decide. }
  intros Hin. apply H. by left.
Qed.

Lemma screen_quiz s :
  screen s = QuizScreen <-> showCompleted s = false ∧ showResults s = false.
Proof. unfold screen. destruct (showCompleted s), (showResults s); split; (done || by intros []). Qed.

Lemma screen_results s :
  screen s = ResultsScreen <-> showCompleted s = false ∧ showResults s = true.
Proof. unfold screen. destruct (showCompleted s), (showResults s); split; (done || by intros []). Qed.

Lemma screen_completed s : screen s = CompletedScreen <-> showCompleted s = true.
Proof. unfold screen. destruct (showCompleted s), (showResults s); split; done. Qed.

Lemma step_stateInv zone drug s s' :
  stateInv drug s -> step zone drug s s' -> stateInv drug s'.
Proof.
  intros (Hidx & Htime & Hscr) Hstep. unfold stateInv.
  destruct Hstep as [s curr o Hq Hc Ho | s now Hq | s Hq Hpos | s curr Hq Hc
                    | s curr Hc Harm | s b Hq | s b Hq | s Hq | s now Hq | s Hq
                    | s now Hq Hready | s Hq Hn].
  - unfold toggle. destruct (Anchor.type curr); cbn; done.
  - destruct (streakEffect_frame now (goNext drug s)) as (-> & _ & -> & -> & -> & _).
    apply screen_quiz in Hq as [Hc Hr].
    unfold goNext. destruct (Nat.ltb_spec (idx s + 1) (total drug)); cbn; [|done].
    split; [lia|]. split; [done|]. by rewrite Hc.
  - unfold goBack. destruct (Nat.ltb_spec 0 (idx s)); cbn; [|done].
    split; [lia | done].
  - cbn. done.
  - cbn. split; [done|]. split; [|done].
    intros id v. rewrite lookup_insert. case_decide; [|apply Htime].
    intros [= <-]. destruct (secondsLeftBy s !! Anchor.id curr) as [w|] eqn:E; cbn.
    + specialize (Htime _ _ E). lia.
    + lia.
  - cbn. done.
  - cbn. done.
  - cbn. split; [lia|]. split; [done|]. apply screen_results in Hq as [-> _]. done.
  - cbn. apply screen_results in Hq as [_ ->]. done.
  - cbn. split; [lia|]. done.
  - cbn. split; [lia|]. done.
  - cbn. done.
Qed.

Lemma reachable_stateInv zone drug s : reachable zone drug s -> stateInv drug s.
Proof.
  induction 1 as [storage Hne | s s' _ IH Hstep].
  - unfold stateInv; cbn. split; [|split; [|done]].
    + unfold total. destruct (Drug.anchors drug); [done | cbn; lia].
    + intros id v ->%initialTimes_values. lia.
  - by eapply step_stateInv.
Qed.

Lemma session_reachable :
  reachable utcZone RAMIPRIL session2 ∧ reachable utcZone RAMIPRIL sessionSecond
  ∧ reachable utcZone RAMIPRIL sessionResults ∧ reachable utcZone RAMIPRIL sessionCompleted.
Proof.
  assert (H0 : reachable utcZone RAMIPRIL session0) by (by apply reachable_mount).
  assert (H1 : reachable utcZone RAMIPRIL session1).
  { apply (reachable_step utcZone RAMIPRIL session0); [exact H0|].
    by apply (step_timer utcZone RAMIPRIL session0 anchor_class). }
  assert (H2 : reachable utcZone RAMIPRIL session2).
  { apply (reachable_step utcZone RAMIPRIL session1); [exact H1|].
    apply (step_toggle utcZone RAMIPRIL session1 anchor_class (Option.mk "ace" "ACE inhibitor"));
      [done | done | apply list_elem_of_here]. }
  assert (Hnext : ∀ s, reachable utcZone RAMIPRIL s -> screen s = QuizScreen ->
                       reachable utcZone RAMIPRIL (streakEffect (sep3_10h utcZone) (goNext RAMIPRIL s))).
  { intros s Hs Hq. apply (reachable_step utcZone RAMIPRIL s); [exact Hs|]. by apply step_goNext. }
  assert (H3 : reachable utcZone RAMIPRIL sessionSecond) by (by apply Hnext).
  assert (H4 : reachable utcZone RAMIPRIL session3).
  { unfold session3. fold sessionSecond. do 3 (apply Hnext; [|done]). exact H3. }
  assert (H5 : reachable utcZone RAMIPRIL sessionResults) by (by apply Hnext).
  repeat split; try assumption.
  apply (reachable_step utcZone RAMIPRIL sessionResults); [exact H5|].
  by apply step_markReviewComplete.
Qed.

(** C7: in progress at an index above 0, "Back" and then "Next" give the
    state back as it was; neither of the two touches the stored times or the
    answers, and "Back" at index 0 does nothing. *)
Theorem goBack_goNext (drug : Drug.t) (s : State) :
  InProgress drug s ->
  ((0 < idx s)%nat ->
     idx (goBack s) = (idx s - 1)%nat
     ∧ goNext drug (goBack s) = s
     ∧ ∀ now, streakEffect now (goNext drug (goBack s)) = s)
  ∧ (idx s = 0%nat -> goBack s = s)
  ∧ secondsLeftBy (goBack s) = secondsLeftBy s ∧ answers (goBack s) = answers s
  ∧ (∀ s0, secondsLeftBy (goNext drug s0) = secondsLeftBy s0
           ∧ answers (goNext drug s0) = answers s0).
Proof.
  intros [Hq Hidx]. apply screen_quiz in Hq as [Hc Hr].
  assert (Hfr : secondsLeftBy (goBack s) = secondsLeftBy s ∧ answers (goBack s) = answers s).
  { unfold goBack. by destruct (0 <? idx s)%nat. }
  split; [|split; [|split; [apply Hfr | split; [apply Hfr|]]]].
  - intros Hpos.
    assert (goNext drug (goBack s) = s) as Hback.
    { unfold goBack. destruct (Nat.ltb_spec 0 (idx s)); [|lia].
      unfold goNext. cbn [idx setIdx].
      destruct (Nat.ltb_spec (idx s - 1 + 1) (total drug)); [|lia].
      replace (idx s - 1 + 1)%nat with (idx s) by lia. by destruct s. }
    split; [|split; [exact Hback|]].
    + unfold goBack. by destruct (Nat.ltb_spec 0 (idx s)); [|lia].
    + intros now. rewrite Hback. by apply streakEffect_quiz.
  - intros H0. unfold goBack. by rewrite H0.
  - intros s0. unfold goNext. by destruct (idx s0 + 1 <? total drug)%nat.
Qed.

Lemma goBack_goNext_witness :
  InProgress RAMIPRIL sessionSecond ∧ idx sessionSecond = 1%nat
  ∧ idx (goBack sessionSecond) = 0%nat
  ∧ goNext RAMIPRIL (goBack sessionSecond) = sessionSecond.
Proof.
  assert (Hp : InProgress RAMIPRIL sessionSecond) by (split; [done | cbn; lia]).
  destruct (goBack_goNext RAMIPRIL sessionSecond Hp) as (H & _).
  destruct H as (H1 & H2 & _); [cbn; lia|].
  split; [exact Hp|]. split; [reflexivity|]. split; [exact H1 | exact H2].
Defined.

Lemma answersFor_emptyAnswers id : answersFor emptyAnswers id = [].
Proof.
  unfold answersFor, emptyAnswers.
  repeat (rewrite lookup_insert; case_decide; [done|]). by rewrite lookup_empty.
Qed.

(** C8, as the code has it: "Try again" on the results screen brings the quiz
    back in progress at index 0 with every answer set empty, and leaves the
    stored times as they are. *)
Theorem tryAgain_resets_answers (drug : Drug.t) (s : State) :
  screen s = ResultsScreen -> Drug.anchors drug ≠ [] ->
  InProgress drug (tryAgain s) ∧ idx (tryAgain s) = 0%nat
  ∧ (∀ id, answersFor (answers (tryAgain s)) id = [])
  ∧ secondsLeftBy (tryAgain s) = secondsLeftBy s.
Proof.
  intros Hq Hne. apply screen_results in Hq as [Hc Hr].
  split; [|split; [done | split; [|done]]].
  - split.
    + apply screen_quiz. cbn. done.
    + cbn. unfold total. destruct (Drug.anchors drug); [done | cbn; lia].
  - intros id. cbn. apply answersFor_emptyAnswers.
Qed.

Lemma tryAgain_resets_answers_witness :
  InProgress RAMIPRIL (tryAgain sessionResults)
  ∧ answersFor (answers (tryAgain sessionResults)) "class" = []
  ∧ secondsLeftBy (tryAgain sessionResults) = secondsLeftBy sessionResults.
Proof.
  destruct (tryAgain_resets_answers RAMIPRIL sessionResults) as (H1 & _ & H3 & H4);
    [reflexivity | discriminate |].
  split; [exact H1|]. split; [apply H3 | exact H4].
Defined.

(** C8 as stated fails: after a second has passed on the first question,
    "Try again" leaves that question at 34 seconds. *)
Lemma tryAgain_counterexample :
  reachable utcZone RAMIPRIL sessionResults ∧ screen sessionResults = ResultsScreen
  ∧ secondsLeftBy (tryAgain sessionResults) !! "class"%string = Some 34
  ∧ ¬ resetAll_claim RAMIPRIL (tryAgain sessionResults).
Proof.
  split; [apply session_reachable|]. split; [reflexivity|].
  assert (H34 : secondsLeftBy (tryAgain sessionResults) !! "class"%string = Some 34)
    by (vm_compute; reflexivity).
  split; [exact H34|].
  intros (_ & _ & _ & Ht).
  specialize (Ht anchor_class (list_elem_of_here _ _)).
  change (Anchor.id anchor_class) with "class"%string in Ht.
  rewrite H34 in Ht. discriminate.
Qed.

(** C9: in every state of a mounted component the stored seconds of every
    anchor are at least 0, the timer callback sets the current anchor's seconds
    to one less, floored at 0, and leaves the other anchors' as they were. *)
Theorem secondsLeft_never_negative (zone : Zone) (drug : Drug.t) (s : State) :
  reachable zone drug s ->
  (∀ id v, secondsLeftBy s !! id = Some v -> 0 <= v)
  ∧ (∀ curr, 0 <= secondsLeft curr s)
  ∧ (∀ curr,
       secondsLeft curr (timerCallback curr s) = Z.max 0 (secondsLeft curr s - 1)
       ∧ 0 <= secondsLeft curr (timerCallback curr s)
       ∧ ∀ other, Anchor.id other ≠ Anchor.id curr ->
           secondsLeft other (timerCallback curr s) = secondsLeft other s).
Proof.
  intros Hs. destruct (reachable_stateInv zone drug s Hs) as (_ & Htime & _).
  split; [|split].
  - intros id v Hv. specialize (Htime id v Hv). lia.
  - intros curr. unfold secondsLeft.
    destruct (secondsLeftBy s !! Anchor.id curr) as [v|] eqn:E; cbn; [|lia].
    specialize (Htime _ _ E). lia.
  - intros curr. unfold secondsLeft, timerCallback. cbn [secondsLeftBy setSecondsLeftBy].
    rewrite lookup_insert_eq. simpl. split; [reflexivity|].
    split; [lia|]. intros other Hne. by rewrite lookup_insert_ne.
Qed.

Lemma secondsLeft_never_negative_witness :
  reachable utcZone RAMIPRIL session2
  ∧ secondsLeft anchor_class session2 = 34
  ∧ 0 <= secondsLeft anchor_class session2
  ∧ secondsLeft anchor_class (timerCallback anchor_class session2) = 33.
Proof.
  assert (Hr : reachable utcZone RAMIPRIL session2) by apply session_reachable.
  destruct (secondsLeft_never_negative utcZone RAMIPRIL session2 Hr) as (_ & H2 & H3).
  split; [exact Hr|]. split; [reflexivity|]. split; [apply H2|].
  destruct (H3 anchor_class) as (-> & _). reflexivity.
Defined.

(** C10: "Back to home" and "Start next dose" put the index back to 0 and
    leave the completed screen; "Start next dose" also forgets the stored
    unlock time. Both keep the answers and the stored times of the session
    that was completed, and after "Back to home" the quiz is in progress at
    the first question with them. *)
Theorem leaving_completed_keeps_session (s : State) :
  (idx (backToHome s) = 0%nat
   ∧ answers (backToHome s) = answers s
   ∧ secondsLeftBy (backToHome s) = secondsLeftBy s
   ∧ screen (backToHome s) = QuizScreen
   ∧ nextAt (backToHome s) = nextAt s
   ∧ localStorage (backToHome s) = localStorage s
   ∧ streak (backToHome s) = streak s)
  ∧ (idx (startNextDose s) = 0%nat
     ∧ answers (startNextDose s) = answers s
     ∧ secondsLeftBy (startNextDose s) = secondsLeftBy s
     ∧ showCompleted (startNextDose s) = false
     ∧ showResults (startNextDose s) = showResults s
     ∧ nextAt (startNextDose s) = None
     ∧ getItem "dotd_next_at" (startNextDose s) = None
     ∧ (∀ k, k ≠ "dotd_next_at"%string -> getItem k (startNextDose s) = getItem k s)
     ∧ streak (startNextDose s) = streak s)
  ∧ (∀ zone drug, reachable zone drug s -> screen s = CompletedScreen ->
       InProgress drug (backToHome s)
       ∧ (∀ curr, secondsLeft curr (backToHome s) = secondsLeft curr s
                  ∧ answersFor (answers (backToHome s)) (Anchor.id curr)
                    = answersFor (answers s) (Anchor.id curr))).
Proof.
  split; [repeat split | split].
  - unfold getItem; cbn. repeat split.
    + apply lookup_delete_eq.
    + intros k Hk. by apply lookup_delete_ne.
  - intros zone drug Hs Hscr.
    destruct (reachable_stateInv zone drug s Hs) as (Hidx & _ & _).
    split; [split; [reflexivity|]|done].
    cbn. lia.
Qed.

Lemma leaving_completed_keeps_session_witness :
  screen sessionCompleted = CompletedScreen
  ∧ InProgress RAMIPRIL (backToHome sessionCompleted)
  ∧ answersFor (answers (backToHome sessionCompleted)) "class" = ["ace"%string]
  ∧ secondsLeft anchor_class (backToHome sessionCompleted) = 34.
Proof.
  destruct (leaving_completed_keeps_session sessionCompleted) as (_ & _ & H).
  destruct (H utcZone RAMIPRIL) as (H1 & H2); [apply session_reachable | reflexivity |].
  split; [reflexivity|]. split; [exact H1|].
  destruct (H2 anchor_class) as (Ht & Ha). split.
  - etransitivity; [exact Ha | reflexivity].
  - rewrite Ht. reflexivity.
Defined.

(** * Further properties of the code *)

(** ** The unlock time *)

Lemma next9amTs_bounds (zone : Zone) (base : Z) :
  plainYear zone base -> regularZone zone ->
  base < next9amTs zone base
  ∧ 0 < LocalTime zone (next9amTs zone base) - LocalTime zone base <= 24 * 3600 * 1000
  ∧ next9amTs zone base
    <= base + 24 * 3600 * 1000
       + (LocalTZA zone base true - LocalTZA zone (next9amTs zone base) true)
  ∧ timeOfDay zone (next9amTs zone base) = nine.
Proof.
  intros Hy Hz.
  pose proof (regularZone_regular09 zone (localDay zone base) Hz) as Hr.
  pose proof (regularZone_regular09 zone (localDay zone base + 1) Hz) as Hr1.
  pose proof (localDay_timeOfDay zone base) as Hb.
  pose proof (TimeWithinDay_range (LocalTime zone base)) as Hrange.
  fold (timeOfDay zone base) in Hrange.
  assert (Hcase : ∃ day, next9amTs zone base = UTC zone (ES.MakeDate day nine)
                    ∧ regular09 zone day
                    ∧ 0 < ES.MakeDate day nine - LocalTime zone base <= 24 * 3600 * 1000).
  { destruct (Z.lt_ge_cases (timeOfDay zone base) nine) as [Hlt|Hge].
    - exists (localDay zone base).
      rewrite (next9amTs_before zone base Hy Hr Hlt), (newDate_today zone base Hy).
      split; [reflexivity|]. split; [exact Hr|].
      rewrite Hb. revert Hrange Hlt. unfold ES.MakeDate.
      generalize (localDay zone base) (timeOfDay zone base).
      generalize nine_range. generalize nine. change ES.msPerDay with 86400000. intros; lia.
    - exists (localDay zone base + 1).
      rewrite (next9amTs_after zone base Hy Hr Hge), (newDate_day zone base 1 Hy).
      split; [reflexivity|]. split; [exact Hr1|].
      rewrite Hb. revert Hrange Hge. unfold ES.MakeDate.
      generalize (localDay zone base) (timeOfDay zone base).
      generalize nine_range. generalize nine. change ES.msPerDay with 86400000. intros; lia. }
  destruct Hcase as (day & -> & [Hc Hord] & Hdiff).
  destruct (local_eq zone _ _ _ Hc nine_range) as [_ Ht].
  unfold consistent in Hc. specialize (Hord base).
  split; [apply Hord; lia|]. rewrite Hc. split; [exact Hdiff|]. split; [|exact Ht].
  revert Hc Hdiff. unfold LocalTime.
  generalize (ES.MakeDate day nine) (UTC zone (ES.MakeDate day nine)). intros x c.
  generalize (LocalTZA zone c true) (LocalTZA zone base true). intros; lia.
Qed.

(** X1: in a zone none of whose clock changes crosses 09:00, the unlock time
    is strictly after [base] and is a local 09:00:00.000; it is at most 24
    hours later on the local clock, which in elapsed time is 24 hours plus
    whatever the zone's offset loses in between. *)
Theorem next9amTs_strictly_future (zone : Zone) (base : Z) :
  plainYear zone base -> regularZone zone ->
  base < next9amTs zone base
  ∧ 0 < LocalTime zone (next9amTs zone base) - LocalTime zone base <= 24 * 3600 * 1000
  ∧ next9amTs zone base
    <= base + 24 * 3600 * 1000
       + (LocalTZA zone base true - LocalTZA zone (next9amTs zone base) true)
  ∧ timeOfDay zone (next9amTs zone base) = nine.
Proof. apply next9amTs_bounds. Qed.

Lemma next9amTs_strictly_future_witness :
  let base := newDate london2025 2025 9 25 9 0 0 0 in
  base < next9amTs london2025 base
  ∧ LocalTime london2025 (next9amTs london2025 base) - LocalTime london2025 base
    = 24 * 3600 * 1000
  ∧ next9amTs london2025 base - base = 25 * 3600 * 1000.
Proof.
  intros base.
  destruct (next9amTs_strictly_future london2025 base
              (proj1 (proj2 london_oct25)) (proj2 (proj2 london_oct25))) as (H & _).
  split; [exact H|]. split; vm_compute; reflexivity.
Defined.

(** ** The dev tests *)

Lemma setHours_local zone d h m s ms :
  consistent zone (ES.MakeDate (localDay zone d) (ES.MakeTime h m s ms)) ->
  0 <= ES.MakeTime h m s ms < ES.msPerDay ->
  localDay zone (setHours zone d h m s ms) = localDay zone d
  ∧ timeOfDay zone (setHours zone d h m s ms) = ES.MakeTime h m s ms.
Proof. intros Hc Ht. apply local_eq; [exact Hc | exact Ht]. Qed.

Lemma plainYear_localDay zone d d' :
  localDay zone d = localDay zone d' -> plainYear zone d -> plainYear zone d'.
Proof.
  unfold plainYear, getFullYear, ES.YearFromTime, localDay. by intros ->.
Qed.

(** X2: in a zone none of whose clock changes crosses 09:00, whatever the
    clock shows, outside the local years 0 to 99 and on days that have an
    08:00 and a 14:00, the three dev tests of [next9amTs] log PASS; they run
    once, and only in a window. *)
Theorem runDevTests_pass (zone : Zone) (now1 now2 now3 : Z) (hasWindow tested : bool) :
  plainYear zone now1 -> plainYear zone now2 -> plainYear zone now3 ->
  regularZone zone ->
  consistent zone (ES.MakeDate (localDay zone now1) (ES.MakeTime 8 0 0 0)) ->
  consistent zone (ES.MakeDate (localDay zone now3) (ES.MakeTime 14 0 0 0)) ->
  runDevTests zone hasWindow tested now1 now2 now3
  = if hasWindow && negb tested
    then [ ("next9am - before 9am"%string, true);
           ("next9am - at 9am"%string, true);
           ("next9am - after 9am"%string, true) ]
    else [].
Proof.
  intros H1 H2 H3 Hz C1 C3. unfold runDevTests.
  destruct hasWindow; [|reflexivity]. destruct tested; [reflexivity|]. cbn [negb andb].
  pose proof (regularZone_regular09 zone (localDay zone now2) Hz) as [C2 _].
  destruct (setHours_local zone now1 8 0 0 0 C1) as [D1 T1]; [vm_compute; split; [discriminate | reflexivity]|].
  destruct (setHours_local zone now2 9 0 0 0 C2) as [D2 T2]; [vm_compute; split; [discriminate | reflexivity]|].
  destruct (setHours_local zone now3 14 0 0 0 C3) as [D3 T3]; [vm_compute; split; [discriminate | reflexivity]|].
  assert (P1 : plainYear zone (setHours zone now1 8 0 0 0)) by (eapply plainYear_localDay; [symmetry; exact D1 | exact H1]).
  assert (P2 : plainYear zone (setHours zone now2 9 0 0 0)) by (eapply plainYear_localDay; [symmetry; exact D2 | exact H2]).
  assert (P3 : plainYear zone (setHours zone now3 14 0 0 0)) by (eapply plainYear_localDay; [symmetry; exact D3 | exact H3]).
  unfold getTime.
  rewrite (next9amTs_before zone _ P1)
    by (first [apply regularZone_regular09; exact Hz | rewrite T1; vm_compute; reflexivity]).
  rewrite (next9amTs_after zone _ P2)
    by (first [apply regularZone_regular09; exact Hz | rewrite T2; vm_compute; discriminate]).
  rewrite (next9amTs_after zone _ P3)
    by (first [apply regularZone_regular09; exact Hz | rewrite T3; vm_compute; discriminate]).
  rewrite !bool_decide_eq_true_2 by reflexivity. reflexivity.
Qed.

Lemma runDevTests_pass_witness :
  map snd (runDevTests london2025 true false
             (newDate london2025 2025 9 25 8 0 0 0) (newDate london2025 2025 9 25 9 0 0 0)
             (newDate london2025 2025 9 25 8 0 0 0))
  = [true; true; true].
Proof.
  destruct london_oct25 as (H8 & H9 & Hz).
  rewrite (runDevTests_pass london2025 _ _ _ true false H8 H9 H8 Hz);
    [reflexivity | vm_compute; reflexivity | vm_compute; reflexivity].
Defined.

(** ** Day windows *)

Lemma days_boundaryNow zone now now' :
  boundaryNow zone now' = boundaryNow zone now -> days zone now' = days zone now.
Proof. intros H. unfold days. by rewrite H. Qed.

Lemma pickDrugForToday_days zone now now' (list : list Drug.t) :
  days zone now' = days zone now ->
  pickDrugForToday zone now' list = pickDrugForToday zone now list.
Proof. intros H. unfold pickDrugForToday. by rewrite H. Qed.

(** Between the 09:00 of day [w] and the next one, reached 24 hours later,
    [boundaryNow] is that 09:00. *)
Lemma boundaryNow_in_window zone w t :
  plainYear zone t -> regularZone zone ->
  UTC zone (ES.MakeDate (w + 1) nine) = UTC zone (ES.MakeDate w nine) + 24 * 3600 * 1000 ->
  UTC zone (ES.MakeDate w nine) <= t < UTC zone (ES.MakeDate (w + 1) nine) ->
  boundaryNow zone t = UTC zone (ES.MakeDate w nine).
Proof.
  intros Hy Hz Hnext Hin.
  pose proof (regularZone_regular09 zone w Hz) as [_ Hw].
  pose proof (regularZone_regular09 zone (w + 1) Hz) as [_ Hw1].
  pose proof (regularZone_regular09 zone (localDay zone t) Hz) as Hr.
  rewrite (boundaryNow_cases zone t Hy Hr), (today9_value zone t Hy).
  specialize (Hw t). specialize (Hw1 t).
  pose proof (localDay_timeOfDay zone t) as Hl.
  pose proof (TimeWithinDay_range (LocalTime zone t)) as Hrange.
  fold (timeOfDay zone t) in Hrange.
  assert (Hday : (localDay zone t = w ∧ nine <= timeOfDay zone t)
                 ∨ (localDay zone t = w + 1 ∧ timeOfDay zone t < nine)).
  { revert Hw Hw1 Hl Hrange Hin. unfold ES.MakeDate.
    generalize (UTC zone (w * ES.msPerDay + nine)) (UTC zone ((w + 1) * ES.msPerDay + nine)).
    generalize (LocalTime zone t) (localDay zone t) (timeOfDay zone t).
    generalize nine_range. generalize nine. change ES.msPerDay with 86400000.
    intros; lia. }
  destruct Hday as [[-> Ht]|[-> Ht]].
  - destruct (Z.ltb_spec (timeOfDay zone t) nine); [lia | reflexivity].
  - destruct (Z.ltb_spec (timeOfDay zone t) nine); [|lia]. rewrite Hnext. lia.
Qed.

(** X3: in a zone none of whose clock changes crosses 09:00, let the window
    of [now] run from the latest local 09:00 up to the next one, and let that
    next one come 24 hours later (no clock change in between). Then [now]
    lies in its window, and every instant of the window has the window's start
    as [boundaryNow], the same day number and the same selected item. *)
Theorem pickDrugForToday_same_window (zone : Zone) (now now' : Z) (list : list Drug.t) :
  plainYear zone now -> plainYear zone now' -> regularZone zone ->
  let w := localDay zone now - (if timeOfDay zone now <? nine then 1 else 0) in
  let start := UTC zone (ES.MakeDate w nine) in
  let next := UTC zone (ES.MakeDate (w + 1) nine) in
  next = start + 24 * 3600 * 1000 ->
  start <= now' < next ->
  start <= now < next
  ∧ boundaryNow zone now = start
  ∧ boundaryNow zone now' = start
  ∧ days zone now' = days zone now
  ∧ pickDrugForToday zone now' list = pickDrugForToday zone now list.
Proof.
  intros Hy Hy' Hz w start next Hnext Hin'.
  assert (Hin : start <= now < next).
  { pose proof (regularZone_regular09 zone w Hz) as [_ Hw].
    pose proof (regularZone_regular09 zone (w + 1) Hz) as [_ Hw1].
    specialize (Hw now). specialize (Hw1 now).
    pose proof (localDay_timeOfDay zone now) as Hl.
    pose proof (TimeWithinDay_range (LocalTime zone now)) as Hrange.
    fold (timeOfDay zone now) in Hrange.
    fold start in Hw. fold next in Hw1. clearbody start next.
    unfold w in Hw, Hw1. revert Hw Hw1 Hl Hrange. unfold ES.MakeDate.
    generalize (LocalTime zone now) (localDay zone now) (timeOfDay zone now).
    generalize nine_range. generalize nine. change ES.msPerDay with 86400000.
    intros n Hn L D T. destruct (Z.ltb_spec T n); intros; lia. }
  pose proof (boundaryNow_in_window zone w now Hy Hz Hnext Hin) as Hb.
  pose proof (boundaryNow_in_window zone w now' Hy' Hz Hnext Hin') as Hb'.
  fold start in Hb, Hb'.
  assert (Hd : days zone now' = days zone now)
    by (apply days_boundaryNow; by rewrite Hb, Hb').
  split; [exact Hin|]. split; [exact Hb|]. split; [exact Hb'|]. split; [exact Hd|].
  by apply pickDrugForToday_days.
Qed.

Lemma pickDrugForToday_same_window_witness :
  boundaryNow sydney2025 (newDate sydney2025 2025 9 3 10 0 0 0)
  = newDate sydney2025 2025 9 3 9 0 0 0
  ∧ pickDrugForToday sydney2025 (newDate sydney2025 2025 9 4 8 59 59 999) [RAMIPRIL]
    = pickDrugForToday sydney2025 (newDate sydney2025 2025 9 3 10 0 0 0) [RAMIPRIL].
Proof.
  assert (Hy : plainYear sydney2025 (newDate sydney2025 2025 9 3 10 0 0 0))
    by (intros [_ H]; vm_compute in H; apply H; reflexivity).
  assert (Hy' : plainYear sydney2025 (newDate sydney2025 2025 9 4 8 59 59 999))
    by (intros [_ H]; vm_compute in H; apply H; reflexivity).
  destruct (pickDrugForToday_same_window sydney2025 _ _ [RAMIPRIL] Hy Hy' eq_refl)
    as (_ & Hb & _ & _ & H);
    [vm_compute; reflexivity | vm_compute; split; [discriminate | reflexivity] |].
  split; [rewrite Hb; vm_compute; reflexivity | exact H].
Defined.

(** X4: in a zone none of whose clock changes crosses 09:00, take [now] and
    the instant [k] times 24 hours later, with the same offset in force at
    both and with the 09:00 of both local days read with the offset of the
    first window's 09:00 (no clock change left standing between them). Then
    the day number is [k] more and the index moves on by [k] modulo the number
    of items, so that the selection repeats after as many days as there are
    items. *)
Theorem pickDrugForToday_rotation (zone : Zone) (now k : Z) (list : list Drug.t) :
  let later := now + k * (24 * 3600 * 1000) in
  plainYear zone now -> plainYear zone later -> regularZone zone ->
  LocalTZA zone later true = LocalTZA zone now true ->
  sameOffset09 zone (ES.MakeDay 2025 8 1) (localDay zone now) ->
  sameOffset09 zone (ES.MakeDay 2025 8 1) (localDay zone now + k) ->
  list ≠ [] ->
  let N := Z.of_nat (length list) in
  ∃ d, days zone now = Some d
    ∧ days zone later = Some (d + k)
    ∧ pickIdx (d + k) N = (pickIdx d N + k) mod N
    ∧ (k mod N = 0 -> pickDrugForToday zone later list = pickDrugForToday zone now list).
Proof.
  intros later Hy Hy' Hz Hoff Hs Hs' Hne N.
  assert (0 < N) as HN by (unfold N; destruct list; [done | cbn; lia]).
  assert (Hlocal : localDay zone later = localDay zone now + k
                   ∧ timeOfDay zone later = timeOfDay zone now).
  { unfold localDay, timeOfDay, LocalTime. rewrite Hoff.
    unfold later, ES.Day, ES.TimeWithinDay.
    change ES.msPerDay with 86400000. change (24 * 3600 * 1000) with 86400000.
    generalize (LocalTZA zone now true). intros o.
    replace (now + k * 86400000 + o) with (now + o + k * 86400000) by lia.
    rewrite Z.div_add, Z.mod_add by lia. done. }
  destruct Hlocal as [HD HT].
  pose proof (days_value zone now Hy (regularZone_regular09 zone _ Hz) Hs) as Hd.
  pose proof (days_value zone later Hy' (regularZone_regular09 zone _ Hz)) as Hd'.
  rewrite HD, HT in Hd'. specialize (Hd' Hs').
  set (d := localDay zone now - (if timeOfDay zone now <? nine then 1 else 0) - ES.MakeDay 2025 8 1) in *.
  exists d. split; [exact Hd|].
  assert (Hdk : days zone later = Some (d + k)).
  { rewrite Hd'. f_equal. unfold d. generalize (ES.MakeDay 2025 8 1). intros; lia. }
  split; [exact Hdk|]. split.
  - rewrite !pickIdx_mod by exact HN. by rewrite Zplus_mod_idemp_l.
  - intros Hk.
    rewrite (pickDrugForToday_lookup zone _ list (d + k) Hdk Hne).
    rewrite (pickDrugForToday_lookup zone _ list d Hd Hne).
    fold N. rewrite !pickIdx_mod by exact HN.
    by rewrite <- Zplus_mod_idemp_r, Hk, Z.add_0_r.
Qed.

Lemma pickDrugForToday_rotation_witness :
  days sydney2025 (sep3_10h sydney2025 + 2 * (24 * 3600 * 1000)) = Some 4
  ∧ pickDrugForToday sydney2025 (sep3_10h sydney2025 + 2 * (24 * 3600 * 1000)) [RAMIPRIL; RAMIPRIL]
    = pickDrugForToday sydney2025 (sep3_10h sydney2025) [RAMIPRIL; RAMIPRIL].
Proof.
  assert (Hy : plainYear sydney2025 (sep3_10h sydney2025))
    by (intros [_ H]; vm_compute in H; apply H; reflexivity).
  assert (Hy' : plainYear sydney2025 (sep3_10h sydney2025 + 2 * (24 * 3600 * 1000)))
    by (intros [_ H]; vm_compute in H; apply H; reflexivity).
  destruct (pickDrugForToday_rotation sydney2025 (sep3_10h sydney2025) 2 [RAMIPRIL; RAMIPRIL]
              Hy Hy' eq_refl) as (d & H1 & H2 & _ & H4);
    [vm_compute; reflexivity | vm_compute; reflexivity | vm_compute; reflexivity
    | discriminate |].
  assert (d = 2) as -> by (vm_compute in H1; congruence).
  split; [exact H2 | apply H4; reflexivity].
Defined.

(** ** Selecting options *)

Lemma answersFor_insert answers id id' v :
  answersFor (<[id := v]> answers) id' = if decide (id = id') then v else answersFor answers id'.
Proof. unfold answersFor. rewrite lookup_insert. by case_decide. Qed.

Lemma toggle_answers_multi curr id s :
  Anchor.type curr = multi ->
  answersFor (answers (toggle curr id s)) (Anchor.id curr)
  = let prev := JSSet.new (answersFor (answers s) (Anchor.id curr)) in
    if JSSet.has prev id then JSSet.delete prev id else JSSet.add prev id.
Proof.
  intros Hm. unfold toggle. rewrite Hm. cbn [answers setAnswers].
  rewrite answersFor_insert. by case_decide.
Qed.

Lemma toggle_answers_other curr id s other :
  other ≠ Anchor.id curr ->
  answersFor (answers (toggle curr id s)) other = answersFor (answers s) other.
Proof.
  intros Hne. unfold toggle.
  destruct (Anchor.type curr); cbn [answers setAnswers];
    rewrite answersFor_insert; by case_decide.
Qed.

Lemma toggle_multi_elem curr id s x :
  Anchor.type curr = multi ->
  x ∈ answersFor (answers (toggle curr id s)) (Anchor.id curr)
  <-> if decide (x = id) then id ∉ answersFor (answers s) (Anchor.id curr)
      else x ∈ answersFor (answers s) (Anchor.id curr).
Proof.
  intros Hm. rewrite (toggle_answers_multi curr id s Hm). cbn zeta.
  destruct (JSSet.has _ id) eqn:E.
  - rewrite JSSet_has_true, JSSet_new_elem in E.
    rewrite JSSet_delete_elem, JSSet_new_elem. case_decide; subst; intuition congruence.
  - rewrite JSSet_has_false, JSSet_new_elem in E.
    rewrite JSSet_add_elem, JSSet_new_elem. case_decide; subst; intuition congruence.
Qed.

Lemma toggle_multi_NoDup curr id s :
  Anchor.type curr = multi ->
  NoDup (answersFor (answers (toggle curr id s)) (Anchor.id curr)).
Proof.
  intros Hm. rewrite (toggle_answers_multi curr id s Hm). cbn zeta.
  destruct (JSSet.has _ id).
  - apply JSSet_delete_NoDup, JSSet_new_NoDup.
  - apply JSSet_add_NoDup, JSSet_new_NoDup.
Qed.

(** X5: on an anchor of type [multi], a click flips the membership of the
    clicked option and of no other, keeps the selection free of repetitions and
    leaves the other anchors' answers alone; a second click on the same option
    gives the selection back. *)
Theorem toggle_multi_flips (curr : Anchor.t) (id : string) (s : State) :
  Anchor.type curr = multi ->
  let sel := answersFor (answers s) (Anchor.id curr) in
  let sel1 := answersFor (answers (toggle curr id s)) (Anchor.id curr) in
  let sel2 := answersFor (answers (toggle curr id (toggle curr id s))) (Anchor.id curr) in
  NoDup sel1
  ∧ (id ∈ sel1 <-> id ∉ sel)
  ∧ (∀ x, x ≠ id -> (x ∈ sel1 <-> x ∈ sel))
  ∧ asSet sel2 = asSet sel
  ∧ (∀ other, other ≠ Anchor.id curr ->
       answersFor (answers (toggle curr id s)) other = answersFor (answers s) other).
Proof.
  intros Hm sel sel1 sel2.
  split; [by apply toggle_multi_NoDup|]. split; [|split; [|split]].
  - unfold sel1. rewrite (toggle_multi_elem curr id s id Hm). by case_decide.
  - intros x Hx. unfold sel1. rewrite (toggle_multi_elem curr id s x Hm). by case_decide.
  - apply asSet_eq. intros x. unfold sel2.
    rewrite (toggle_multi_elem curr id _ x Hm).
    case_decide as Hx.
    + subst x. rewrite (toggle_multi_elem curr id s id Hm).
      case_decide; [|done]. fold sel. destruct (decide (id ∈ sel)); tauto.
    + rewrite (toggle_multi_elem curr id s x Hm). by case_decide.
  - intros other Hne. by apply toggle_answers_other.
Qed.

Lemma toggle_multi_flips_witness :
  answersFor (answers sessionTicked) "indications" = ["htn"; "ckd"]%string
  ∧ asSet (answersFor (answers (toggle anchor_indications "htn"
                                  (toggle anchor_indications "htn" sessionTicked)))
                      "indications")
    = asSet ["htn"; "ckd"]%string
  ∧ answersFor (answers (toggle anchor_indications "htn" sessionTicked)) "indications"
    = ["ckd"]%string.
Proof.
  destruct (toggle_multi_flips anchor_indications "htn" sessionTicked eq_refl)
    as (_ & _ & _ & H & _).
  split; [reflexivity|]. split; [exact H | reflexivity].
Defined.

(** ** The answers of a session *)

Lemma anchor_of_id (l : list Anchor.t) a b :
  NoDup (map Anchor.id l) -> a ∈ l -> b ∈ l -> Anchor.id a = Anchor.id b -> a = b.
Proof.
  induction l as [|c l IH]; intros Hnd Ha Hb Hid; [by apply elem_of_nil in Ha|].
  cbn in Hnd. apply NoDup_cons in Hnd as [Hc Hnd].
  apply elem_of_cons in Ha as [->|Ha]; apply elem_of_cons in Hb as [->|Hb].
  - done.
  - exfalso. apply Hc. rewrite Hid. apply list_elem_of_fmap. by exists b.
  - exfalso. apply Hc. rewrite <- Hid. apply list_elem_of_fmap. by exists a.
  - by apply IH.
Qed.

Lemma step_answersFit zone drug s s' :
  distinctAnchors drug -> answersFit drug s -> step zone drug s s' -> answersFit drug s'.
Proof.
  intros Hd Hfit Hstep.
  assert (Hsame : answers s' = answers s -> answersFit drug s').
  { intros He a Ha. rewrite He. by apply Hfit. }
  assert (Hempty : answers s' = emptyAnswers -> answersFit drug s').
  { intros He a Ha. rewrite He, answersFor_emptyAnswers. cbn.
    split; [apply NoDup_nil_2|]. split; [by intros x Hx%elem_of_nil | lia]. }
  destruct Hstep as [s curr o Hq Hc Ho | s now Hq | s Hq Hpos | s curr Hq Hc
                    | s curr Hc Harm | s b Hq | s b Hq | s Hq | s now Hq | s Hq
                    | s now Hq Hready | s Hq Hn];
    try (apply Hsame; reflexivity); try (apply Hempty; reflexivity).
  - intros a Ha. apply list_elem_of_lookup_2 in Hc as Hcin.
    destruct (decide (Anchor.id a = Anchor.id curr)) as [Hid|Hid].
    + assert (a = curr) as -> by (by eapply anchor_of_id).
      destruct (Hfit curr Hcin) as (Hnd & Hsub & Hone).
      destruct (Anchor.type curr) eqn:Ht.
      * unfold toggle. rewrite Ht. cbn [answers setAnswers].
        rewrite answersFor_insert. case_decide; [|done]. cbn.
        split; [apply NoDup_singleton|]. split; [|lia].
        intros x ->%list_elem_of_singleton. apply list_elem_of_fmap. by exists o.
      * cbn zeta. split; [by apply toggle_multi_NoDup|]. split; [|done].
        intros x Hx. apply (toggle_multi_elem curr (Option.id o) s x Ht) in Hx.
        case_decide; [subst x; apply list_elem_of_fmap; by exists o | by apply Hsub].
    + cbn zeta. rewrite toggle_answers_other by done. by apply Hfit.
  - apply Hsame. destruct (streakEffect_frame now (goNext drug s)) as (_ & -> & _).
    unfold goNext. by destruct (idx s + 1 <? total drug)%nat.
  - apply Hsame. unfold goBack. by destruct (0 <? idx s)%nat.
  - intros a Ha. unfold clearSelection. cbn [answers setAnswers].
    rewrite answersFor_insert. case_decide; [|by apply Hfit]. cbn.
    split; [apply NoDup_nil_2|]. split; [by intros x Hx%elem_of_nil | lia].
Qed.

Lemma reachable_answersFit zone drug s :
  distinctAnchors drug -> reachable zone drug s -> answersFit drug s.
Proof.
  intros Hd. induction 1 as [storage Hne | s s' _ IH Hstep].
  - intros a Ha. cbn [answers initialState]. rewrite answersFor_emptyAnswers. cbn.
    split; [apply NoDup_nil_2|]. split; [by intros x Hx%elem_of_nil | lia].
  - by eapply step_answersFit.
Qed.

(** X6: when the anchors of the drug have different ids, in every state of
    the mounted component the answers of each anchor are option ids of that
    anchor, each at most once, and an anchor of type [single] has at most
    one. *)
Theorem answers_fit_drug (zone : Zone) (drug : Drug.t) (s : State) :
  distinctAnchors drug -> reachable zone drug s -> answersFit drug s.
Proof. apply reachable_answersFit. Qed.

Lemma answers_fit_drug_witness :
  let sel := answersFor (answers sessionCompleted) (Anchor.id anchor_class) in
  NoDup sel ∧ sel ⊆ optionIds anchor_class ∧ (length sel <= 1)%nat ∧ sel = ["ace"%string].
Proof.
  assert (Hd : distinctAnchors RAMIPRIL)
    by (refine (bool_decide_unpack _ _); vm_compute; exact I).
  destruct (answers_fit_drug utcZone RAMIPRIL sessionCompleted Hd
              (proj2 (proj2 (proj2 session_reachable))) anchor_class (list_elem_of_here _ _))
    as (H1 & H2 & H3).
  split; [exact H1|]. split; [exact H2|]. split; [by apply H3 | reflexivity].
Defined.

(** ** The results *)

Lemma missed_elem answers a o :
  o ∈ missed (scoreAnchor answers a)
  <-> o ∈ Anchor.options a ∧ Option.id o ∈ Anchor.correct a
      ∧ Option.id o ∉ answersFor answers (Anchor.id a).
Proof.
  unfold scoreAnchor; cbn [missed].
  rewrite list_elem_of_filter, !JSSet_has_new, andb_True, negb_True, !bool_decide_spec. tauto.
Qed.

Lemma wrong_elem answers a o :
  o ∈ wrong (scoreAnchor answers a)
  <-> o ∈ Anchor.options a ∧ Option.id o ∈ answersFor answers (Anchor.id a)
      ∧ Option.id o ∉ Anchor.correct a.
Proof.
  unfold scoreAnchor; cbn [wrong].
  rewrite list_elem_of_filter, !JSSet_has_new, andb_True, negb_True, !bool_decide_spec. tauto.
Qed.

Lemma correct_elem answers a :
  correct (scoreAnchor answers a) = true
  <-> ∀ x, x ∈ answersFor answers (Anchor.id a) <-> x ∈ Anchor.correct a.
Proof.
  unfold scoreAnchor; cbn [correct].
  rewrite setsEqual_spec by apply JSSet_new_NoDup.
  split; intros H x; specialize (H x); rewrite ?JSSet_new_elem in *; exact H.
Qed.

Lemma nil_no_elem {A : Type} (l : list A) : l = [] <-> ∀ x, x ∉ l.
Proof.
  split; [intros -> x; apply not_elem_of_nil|].
  destruct l as [|y l]; [done|]. intros H. destruct (H y). apply list_elem_of_here.
Qed.

(** X7: when the correct ids and the selected ids are option ids of the
    anchor, the anchor is marked correct exactly when the lists "You missed"
    and "Not correct" are both empty. *)
Theorem correct_iff_nothing_listed (answers : gmap string (list string)) (a : Anchor.t) :
  Anchor.correct a ⊆ optionIds a ->
  answersFor answers (Anchor.id a) ⊆ optionIds a ->
  let r := scoreAnchor answers a in
  correct r = true <-> missed r = [] ∧ wrong r = [].
Proof.
  intros Hc Hs r. unfold r. rewrite correct_elem, !nil_no_elem. split.
  - intros H. split; intros o.
    + rewrite missed_elem. specialize (H (Option.id o)). tauto.
    + rewrite wrong_elem. specialize (H (Option.id o)). tauto.
  - intros [Hm Hw] x. split; intros Hx.
    + destruct (decide (x ∈ Anchor.correct a)) as [|Hn]; [done|].
      specialize (Hs x Hx). apply list_elem_of_fmap in Hs as (o & -> & Ho).
      destruct (Hw o). apply wrong_elem. tauto.
    + destruct (decide (x ∈ answersFor answers (Anchor.id a))) as [|Hn]; [done|].
      specialize (Hc x Hx). apply list_elem_of_fmap in Hc as (o & -> & Ho).
      destruct (Hm o). apply missed_elem. tauto.
Qed.

Lemma correct_iff_nothing_listed_witness :
  let r := scoreAnchor (answers sessionCompleted) anchor_class in
  correct r = true ∧ missed r = [] ∧ wrong r = [].
Proof.
  intros r.
  assert (Hc : Anchor.correct anchor_class ⊆ optionIds anchor_class)
    by (refine (bool_decide_unpack _ _); vm_compute; exact I).
  assert (Hs : answersFor (answers sessionCompleted) (Anchor.id anchor_class)
               ⊆ optionIds anchor_class)
    by (refine (bool_decide_unpack _ _); vm_compute; exact I).
  destruct (correct_iff_nothing_listed (answers sessionCompleted) anchor_class Hc Hs) as [H _].
  assert (Hr : correct r = true) by reflexivity.
  split; [exact Hr | exact (H Hr)].
Defined.

(** ** The per-question times along a session *)

(** X8: a step of the component never raises the seconds left of any anchor,
    and it changes the stored times only when it is the one-second timer on
    the quiz screen with the timer switched on, for the anchor on display. *)
Theorem secondsLeft_never_increases (zone : Zone) (drug : Drug.t) (s s' : State) :
  reachable zone drug s -> step zone drug s s' ->
  (∀ a, secondsLeft a s' <= secondsLeft a s)
  ∧ (secondsLeftBy s' ≠ secondsLeftBy s ->
       screen s = QuizScreen ∧ timerOn s = true
       ∧ ∃ curr, Drug.anchors drug !! idx s = Some curr
           ∧ 0 < secondsLeft curr s
           ∧ s' = timerCallback curr s).
Proof.
  intros Hs Hstep.
  destruct (reachable_stateInv zone drug s Hs) as (_ & Htime & _).
  assert (Hsame : secondsLeftBy s' = secondsLeftBy s ->
                  (∀ a, secondsLeft a s' <= secondsLeft a s)
                  ∧ (secondsLeftBy s' ≠ secondsLeftBy s ->
                     screen s = QuizScreen ∧ timerOn s = true
                     ∧ ∃ curr, Drug.anchors drug !! idx s = Some curr
                         ∧ 0 < secondsLeft curr s ∧ s' = timerCallback curr s)).
  { intros He. split; [|done]. intros a. unfold secondsLeft. rewrite He. lia. }
  destruct Hstep as [s curr o Hq Hc Ho | s now Hq | s Hq Hpos | s curr Hq Hc
                    | s curr Hc Harm | s b Hq | s b Hq | s Hq | s now Hq | s Hq
                    | s now Hq Hready | s Hq Hn];
    try (apply Hsame; reflexivity).
  - apply Hsame. unfold toggle. by destruct (Anchor.type curr).
  - apply Hsame. destruct (streakEffect_frame now (goNext drug s)) as (_ & _ & -> & _).
    unfold goNext. by destruct (idx s + 1 <? total drug)%nat.
  - apply Hsame. unfold goBack. by destruct (0 <? idx s)%nat.
  - unfold timerArmed in Harm.
    apply andb_prop in Harm as [Harm Hpos]. apply andb_prop in Harm as [Harm Hc'].
    apply andb_prop in Harm as [Hon Hr].
    apply negb_true_iff in Hr, Hc'. apply Z.ltb_lt in Hpos.
    split.
    + intros a. unfold secondsLeft, timerCallback. cbn [secondsLeftBy setSecondsLeftBy].
      rewrite lookup_insert. case_decide as Hid; [|lia]. rewrite <- Hid. simpl.
      unfold secondsLeft in Hpos.
      destruct (secondsLeftBy s !! Anchor.id curr) as [v|]; simpl in *; lia.
    + intros _. split; [by apply screen_quiz|]. split; [done|]. by exists curr.
Qed.

Lemma secondsLeft_never_increases_witness :
  secondsLeft anchor_class session1 <= secondsLeft anchor_class session0
  ∧ secondsLeft anchor_class session1 = 34.
Proof.
  assert (Hr : reachable utcZone RAMIPRIL session0) by (by apply reachable_mount).
  assert (Hs : step utcZone RAMIPRIL session0 session1)
    by (by apply (step_timer utcZone RAMIPRIL session0 anchor_class)).
  destruct (secondsLeft_never_increases utcZone RAMIPRIL session0 session1 Hr Hs) as [H _].
  split; [apply H | reflexivity].
Defined.

(** ** Walking through the questions *)

Lemma goNext_iter drug s k :
  showResults s = false -> (idx s + k < total drug)%nat ->
  Nat.iter k (goNext drug) s = setIdx (idx s + k) s.
Proof.
  intros Hr. induction k as [|k IH]; intros Hk.
  - cbn. rewrite Nat.add_0_r. by destruct s.
  - rewrite Nat.iter_succ, IH by lia. unfold goNext. cbn [idx setIdx].
    destruct (Nat.ltb_spec (idx s + k + 1) (total drug)); [|lia].
    unfold setIdx; cbn. f_equal. lia.
Qed.

(** X9: from a question in progress, "Next" pressed once for each remaining
    question but the last moves on one question at a time, and one more press
    shows the results; nothing but the index and [showResults] changes on the
    way. *)
Theorem goNext_reaches_results (drug : Drug.t) (s : State) :
  InProgress drug s ->
  let n := (total drug - 1 - idx s)%nat in
  (∀ k, (k <= n)%nat ->
     InProgress drug (Nat.iter k (goNext drug) s)
     ∧ Nat.iter k (goNext drug) s = setIdx (idx s + k) s)
  ∧ Nat.iter (S n) (goNext drug) s = setShowResults true (setIdx (total drug - 1) s)
  ∧ screen (Nat.iter (S n) (goNext drug) s) = ResultsScreen.
Proof.
  intros [Hq Hidx] n. apply screen_quiz in Hq as [Hc Hr].
  assert (Hk : ∀ k, (k <= n)%nat -> Nat.iter k (goNext drug) s = setIdx (idx s + k) s).
  { intros k Hk. apply goNext_iter; [done | lia]. }
  split; [|split].
  - intros k Hle. rewrite (Hk k Hle). split; [|done]. split.
    + apply screen_quiz. by cbn.
    + cbn. lia.
  - rewrite Nat.iter_succ, (Hk n) by lia. unfold goNext. cbn [idx setIdx].
    destruct (Nat.ltb_spec (idx s + n + 1) (total drug)); [lia|].
    replace (idx s + n)%nat with (total drug - 1)%nat by lia. reflexivity.
  - rewrite Nat.iter_succ, (Hk n) by lia. unfold goNext. cbn [idx setIdx].
    destruct (Nat.ltb_spec (idx s + n + 1) (total drug)); [lia|].
    apply screen_results. by cbn.
Qed.

Lemma goNext_reaches_results_witness :
  InProgress RAMIPRIL session2
  ∧ idx (Nat.iter 4 (goNext RAMIPRIL) session2) = 4%nat
  ∧ screen (Nat.iter 5 (goNext RAMIPRIL) session2) = ResultsScreen.
Proof.
  assert (Hp : InProgress RAMIPRIL session2) by (split; [done | cbn; lia]).
  destruct (goNext_reaches_results RAMIPRIL session2 Hp) as (H1 & _ & H3).
  split; [exact Hp|]. split; [|exact H3].
  destruct (H1 4%nat) as [_ ->]; [cbn; lia | reflexivity].
Defined.

(** ** The unlock gate *)

Lemma initialState_nextAt drug storage v :
  storage !! "dotd_next_at"%string = Some (String_ v) ->
  nextAt (initialState drug storage) = Some v.
Proof.
  intros H. cbn [nextAt initialState]. rewrite H.
  destruct (decide (String_ v = ""%string)) as [He|_]; [by apply String__nonempty in He|].
  by rewrite Number_String_.
Qed.

(** X10: in a zone none of whose clock changes crosses 09:00, after "Mark
    review complete" at [now], a time from 1970 on, the completed screen
    shows; "Start next dose" is enabled exactly from the unlock time on, so
    not at [now] itself, and the countdown from [now] on is between 0 and 24
    hours plus whatever the zone's offset loses before the unlock time. *)
Theorem markReviewComplete_locks (zone : Zone) (now : Z) (s : State) :
  plainYear zone now -> 0 <= now -> regularZone zone ->
  let s' := markReviewComplete zone now s in
  screen s' = CompletedScreen
  ∧ (∀ now', ready now' s' = true <-> next9amTs zone now <= now')
  ∧ ready now s' = false
  ∧ (∀ now', now <= now' ->
       0 <= currentLeft now' s'
       <= 24 * 3600 * 1000
          + (LocalTZA zone now true - LocalTZA zone (next9amTs zone now) true)).
Proof.
  intros Hy H0 Hz s'.
  destruct (next9amTs_bounds zone now Hy Hz) as (Hb & _ & Hup & _).
  assert (Hl : ∀ now', currentLeft now' s' = Z.max 0 (next9amTs zone now - now')).
  { intros now'. unfold currentLeft, s', markReviewComplete. cbn.
    destruct (Z.eqb_spec (next9amTs zone now) 0); [lia | reflexivity]. }
  assert (Hr : ∀ now', ready now' s' = true <-> next9amTs zone now <= now').
  { intros now'. unfold ready. rewrite Hl, Z.leb_le. lia. }
  split; [reflexivity|]. split; [exact Hr|]. split.
  - destruct (ready now s') eqn:E; [|reflexivity]. apply Hr in E. lia.
  - intros now' Hn. rewrite Hl. revert Hb Hup.
    generalize (LocalTZA zone now true) (LocalTZA zone (next9amTs zone now) true).
    generalize (next9amTs zone now). intros; lia.
Qed.

Lemma markReviewComplete_locks_witness :
  let now := newDate london2025 2025 9 25 9 0 0 0 in
  ready now (markReviewComplete london2025 now sessionResults) = false
  ∧ ready (newDate london2025 2025 9 26 9 0 0 0)
          (markReviewComplete london2025 now sessionResults) = true
  ∧ currentLeft now (markReviewComplete london2025 now sessionResults) = 25 * 3600 * 1000.
Proof.
  intros now.
  destruct (markReviewComplete_locks london2025 now sessionResults
              (proj1 (proj2 london_oct25)) ltac:(vm_compute; discriminate)
              (proj2 (proj2 london_oct25))) as (_ & H & H' & _).
  split; [exact H'|]. split; [apply H; vm_compute; discriminate | vm_compute; reflexivity].
Defined.

(** X11: the unlock time stored by "Mark review complete" is the one a
    reload reads back, and the reloaded component starts on the quiz screen at
    the first question whether or not that time has come. *)
Theorem unlock_time_survives_reload (zone : Zone) (now : Z) (s : State) (drug : Drug.t) :
  let reloaded := initialState drug (localStorage (markReviewComplete zone now s)) in
  getItem "dotd_next_at" (markReviewComplete zone now s) = Some (String_ (Int (next9amTs zone now)))
  ∧ nextAt reloaded = Some (Int (next9amTs zone now))
  ∧ nextAt reloaded = nextAt (markReviewComplete zone now s)
  ∧ screen reloaded = QuizScreen ∧ idx reloaded = 0%nat.
Proof.
  intros reloaded.
  assert (H : getItem "dotd_next_at" (markReviewComplete zone now s)
              = Some (String_ (Int (next9amTs zone now)))).
  { unfold getItem, markReviewComplete, setItem; cbn. apply lookup_insert_eq. }
  split; [exact H|].
  assert (Hn : nextAt reloaded = Some (Int (next9amTs zone now)))
    by (by apply initialState_nextAt).
  split; [exact Hn|]. split; [by rewrite Hn | by split].
Qed.

(** X12: the streak shown after the streak effect is the streak a reload
    shows. *)
Theorem streak_survives_reload (now : Z) (s : State) (drug : Drug.t) :
  showResults s = true ->
  streak (initialState drug (localStorage (streakEffect now s))) = streak (streakEffect now s).
Proof.
  intros Hr. destruct (streakEffect_stored now s Hr) as (_ & _ & H). exact H.
Qed.

Lemma streak_survives_reload_witness :
  streak (initialState RAMIPRIL (localStorage (streakEffect (sep3_10h utcZone) streakState))) = Int 5.
Proof.
  rewrite (streak_survives_reload (sep3_10h utcZone) streakState RAMIPRIL eq_refl).
  vm_compute. reflexivity.
Defined.

(** ** Mounting *)

Lemma pickDrugForToday_elem zone now (list : list Drug.t) drug :
  pickDrugForToday zone now list = Some drug -> drug ∈ list.
Proof.
  unfold pickDrugForToday. destruct (days zone now); [|done].
  unfold arrayGet. intros H.
  repeat match type of H with
         | context [if ?b then _ else _] => destruct b
         end; try done; by apply list_elem_of_lookup_2 in H.
Qed.

(** X13: mounting either fails with a [TypeError], when the content is empty
    or the item selected has no anchors, or starts a session on an item of the
    content: in progress at the first question, no answers, 35 seconds for
    every anchor. *)
Theorem mount_outcome (zone : Zone) (now : Z) (list : list Drug.t) (storage : gmap string string) :
  match mount zone now list storage with
  | Normal (drug, s) =>
      pickDrugForToday zone now list = Some drug ∧ drug ∈ list
      ∧ reachable zone drug s ∧ InProgress drug s ∧ idx s = 0%nat
      ∧ (∀ a, secondsLeft a s = 35)
      ∧ (∀ id, answersFor (answers s) id = [])
      ∧ localStorage s = storage
  | Throw e =>
      e = "TypeError"%string
      ∧ (list = [] ∨ ∃ drug, pickDrugForToday zone now list = Some drug
                       ∧ drug ∈ list ∧ Drug.anchors drug = [])
  end.
Proof.
  unfold mount. destruct (pickDrugForToday zone now list) as [drug|] eqn:Hp.
  - pose proof (pickDrugForToday_elem zone now list drug Hp) as Hin.
    cbn [idx initialState].
    destruct (Drug.anchors drug !! 0%nat) as [curr|] eqn:Hc.
    + assert (Hne : Drug.anchors drug ≠ []) by (intros He; by rewrite He in Hc).
      split; [done|]. split; [done|]. split; [by apply reachable_mount|].
      split; [|split; [done | split; [|split; [|done]]]].
      * split; [done|]. cbn. by apply lookup_lt_Some in Hc.
      * intros a. unfold secondsLeft. cbn [secondsLeftBy initialState].
        destruct (initialTimes drug !! Anchor.id a) as [v|] eqn:E; [|done].
        apply initialTimes_values in E. by subst.
      * intros id. apply answersFor_emptyAnswers.
    + split; [done|]. right. exists drug. split; [done|]. split; [done|].
      by destruct (Drug.anchors drug).
  - split; [done|]. left. destruct list as [|d list]; [done|]. exfalso.
    destruct (days_is_Some zone now) as [dy Hd].
    rewrite (pickDrugForToday_lookup zone now (d :: list) dy Hd) in Hp by done.
    apply lookup_ge_None in Hp.
    pose proof (Z.mod_pos_bound dy (Z.of_nat (length (d :: list))) ltac:(cbn; lia)).
    rewrite pickIdx_mod in Hp by (cbn; lia). lia.
Qed.

(** ** The geolocation hook *)

(** X14: once the hook has coordinates it keeps them, also when a later
    request is denied; the status [granted] comes with coordinates, the
    status [idle] with none, and while the status is [prompt] a call of
    [getCurrentPosition] has yet to call back. *)
Theorem geo_invariants {C : Type} (g : GeoState C) :
  geoReachable g ->
  (status g = granted -> is_Some (coords g))
  ∧ (status g = idle -> coords g = None ∧ pending g = 0%nat)
  ∧ (status g = prompt -> (0 < pending g)%nat)
  ∧ (∀ g', geoStep g g' -> is_Some (coords g) -> is_Some (coords g')).
Proof.
  intros Hg.
  assert (Hinv : (status g = granted -> is_Some (coords g))
                 ∧ (status g = idle -> coords g = None ∧ pending g = 0%nat)
                 ∧ (status g = prompt -> (0 < pending g)%nat)).
  { induction Hg as [|g g' _ IH Hstep]; [by cbn|].
    destruct IH as (IH1 & IH2 & IH3).
    destruct Hstep as [g b | g pos Hp | g Hp]; cbn.
    - unfold request. destruct b; cbn; repeat split; first [done | lia | tauto].
    - repeat split; first [done | by eexists].
    - repeat split; done. }
  destruct Hinv as (H1 & H2 & H3). repeat split; try tauto.
  intros g' Hstep Hc. destruct Hstep as [g b | g pos Hp | g Hp]; cbn; [|by eexists|done].
  unfold request. by destruct b.
Qed.

Lemma geo_invariants_witness :
  status (onPositionError (request true (onPosition (51, 0) (request true geoInitial)))) = denied
  ∧ is_Some (coords (onPositionError
                       (request true (onPosition (51, 0) (request true (@geoInitial (Z * Z))))))).
Proof.
  set (g1 := request true (@geoInitial (Z * Z))).
  set (g2 := onPosition (51, 0) g1).
  set (g3 := request true g2).
  assert (R1 : geoReachable g1) by (eapply geo_next; [apply geo_initial | apply geo_request]).
  assert (R2 : geoReachable g2) by (eapply geo_next; [exact R1 | apply geo_position; cbn; lia]).
  assert (R3 : geoReachable g3) by (eapply geo_next; [exact R2 | apply geo_request]).
  destruct (geo_invariants g3 R3) as (_ & _ & _ & H).
  split; [reflexivity|].
  apply (H (onPositionError g3)); [apply geo_error; cbn; lia | by eexists].
Defined.

(** ** The countdown format *)

Lemma fmt_pad_two_digits n : 0 <= n < 100 -> fmt_pad n = pad 2 n.
Proof.
  intros Hn.
  assert (Hall : forallb (λ k, String.eqb (fmt_pad (Z.of_nat k)) (pad 2 (Z.of_nat k)))
                         (seq 0 100) = true) by (vm_compute; reflexivity).
  rewrite forallb_forall in Hall.
  specialize (Hall (Z.to_nat n)). rewrite Z2Nat.id in Hall by lia.
  apply String.eqb_eq, Hall, in_seq. lia.
Qed.

Lemma digitVal_digitChar n : digitVal (digitChar n) = Some (n mod 10).
Proof.
  unfold digitVal, digitChar.
  rewrite nat_ascii_embedding by zlia.
  replace (Z.of_nat (48 + Z.to_nat (n mod 10))) with (48 + n mod 10) by zlia.
  destruct (Z.leb_spec 48 (48 + n mod 10)), (Z.leb_spec (48 + n mod 10) 57);
    cbn [andb]; try zlia. f_equal. lia.
Qed.

Lemma digitsVal_pad2 n : 0 <= n < 100 -> digitsVal 0 (pad 2 n) = Some n.
Proof.
  intros Hn.
  change (pad 2 n) with (String (digitChar (n / 10)) (String (digitChar n) "")).
  cbn [digitsVal]. rewrite digitVal_digitChar. cbn [digitsVal].
  rewrite digitVal_digitChar. f_equal. zlia.
Qed.

(** What [fmt] shows for three numbers below 100. *)
Lemma fmt_fields_read (a b c : string) :
  String.length a = 2%nat -> String.length b = 2%nat -> String.length c = 2%nat ->
  let t := (a ++ ":" ++ b ++ ":" ++ c)%string in
  String.length t = 8%nat
  ∧ substring 0 2 t = a ∧ charAt t 2 = Some ":"%char
  ∧ substring 3 2 t = b ∧ charAt t 5 = Some ":"%char
  ∧ substring 6 2 t = c.
Proof.
  intros Ha Hb Hc.
  destruct a as [|a1 [|a2 [|]]]; try discriminate.
  destruct b as [|b1 [|b2 [|]]]; try discriminate.
  destruct c as [|c1 [|c2 [|]]]; try discriminate.
  repeat split.
Qed.

(** X15: for a duration below 100 hours, [fmt] shows eight characters
    HH:MM:SS whose three two-digit fields read back as hours, minutes below 60
    and seconds below 60 that add up to the whole seconds of the duration. *)
Theorem fmt_reads_back (ms : Z) :
  0 <= ms < 100 * 3600 * 1000 ->
  ∃ h m s,
    String.length (fmt ms) = 8%nat
    ∧ field (fmt ms) 0 2 = Some h ∧ charAt (fmt ms) 2 = Some ":"%char
    ∧ field (fmt ms) 3 2 = Some m ∧ charAt (fmt ms) 5 = Some ":"%char
    ∧ field (fmt ms) 6 2 = Some s
    ∧ 0 <= h < 100 ∧ 0 <= m < 60 ∧ 0 <= s < 60
    ∧ h * 3600 + m * 60 + s = ms / 1000.
Proof.
  intros Hms.
  set (total := ms / 1000).
  assert (Ht : 0 <= total < 360000) by (unfold total; zlia).
  set (h := total / 3600). set (m := Z.rem total 3600 / 60). set (s := Z.rem total 60).
  assert (Hh : 0 <= h < 100) by (unfold h; zlia).
  assert (Hm : 0 <= m < 60) by (unfold m; zlia).
  assert (Hs : 0 <= s < 60) by (unfold s; zlia).
  assert (Hsum : h * 3600 + m * 60 + s = total) by (unfold h, m, s; zlia).
  exists h, m, s.
  assert (Hf : fmt ms = (pad 2 h ++ ":" ++ pad 2 m ++ ":" ++ pad 2 s)%string).
  { unfold fmt. fold total. fold h m s. by rewrite !fmt_pad_two_digits by lia. }
  destruct (fmt_fields_read (pad 2 h) (pad 2 m) (pad 2 s)) as (L & F1 & C1 & F2 & C2 & F3);
    try apply pad_length.
  rewrite <- Hf in L, F1, C1, F2, C2, F3.
  unfold field. rewrite F1, F2, F3, !pad_length.
  repeat (destruct (decide _); [|done]).
  rewrite !digitsVal_pad2 by lia. done.
Qed.

Lemma fmt_reads_back_witness :
  fmt (23 * 3600 * 1000 + 59 * 1000 + 999) = "23:00:59"%string
  ∧ ∃ h m s, field (fmt (23 * 3600 * 1000 + 59 * 1000 + 999)) 0 2 = Some h
      ∧ field (fmt (23 * 3600 * 1000 + 59 * 1000 + 999)) 3 2 = Some m
      ∧ field (fmt (23 * 3600 * 1000 + 59 * 1000 + 999)) 6 2 = Some s
      ∧ h * 3600 + m * 60 + s = 82859.
Proof.
  split; [vm_compute; reflexivity|].
  destruct (fmt_reads_back (23 * 3600 * 1000 + 59 * 1000 + 999))
    as (h & m & s & _ & H1 & _ & H2 & _ & H3 & _ & _ & _ & H4);
    [vm_compute; split; [discriminate | reflexivity]|].
  exists h, m, s. split; [exact H1|]. split; [exact H2|]. split; [exact H3|].
  rewrite H4. vm_compute. reflexivity.
Defined.

(** ** Running out of time and leaving the completed screen *)

Lemma timerCallback_iter curr s k :
  0 <= secondsLeft curr s ->
  secondsLeft curr (Nat.iter k (timerCallback curr) s)
  = Z.max 0 (secondsLeft curr s - Z.of_nat k).
Proof.
  intros H0. induction k as [|k IH].
  - cbn. lia.
  - rewrite Nat.iter_succ. unfold secondsLeft at 1, timerCallback at 1.
    cbn [secondsLeftBy setSecondsLeftBy]. rewrite lookup_insert_eq. simpl.
    fold (secondsLeft curr (Nat.iter k (timerCallback curr) s)). rewrite IH. lia.
Qed.

(** X16: in a mounted component the timer, fired [k] times on the anchor on
    display, leaves max(0, seconds - k) seconds, so a fresh question is at 0
    after 35 seconds; at 0 the timer is not armed again. *)
Theorem timer_runs_out (zone : Zone) (drug : Drug.t) (s : State) (curr : Anchor.t) (k : nat) :
  reachable zone drug s ->
  secondsLeft curr (Nat.iter k (timerCallback curr) s)
  = Z.max 0 (secondsLeft curr s - Z.of_nat k)
  ∧ (secondsLeft curr s <= Z.of_nat k ->
       timerArmed curr (Nat.iter k (timerCallback curr) s) = false).
Proof.
  intros Hs.
  destruct (reachable_stateInv zone drug s Hs) as (_ & Htime & _).
  assert (H0 : 0 <= secondsLeft curr s).
  { unfold secondsLeft. destruct (secondsLeftBy s !! Anchor.id curr) as [v|] eqn:E; simpl; [|lia].
    specialize (Htime _ _ E). lia. }
  pose proof (timerCallback_iter curr s k H0) as Hk.
  split; [exact Hk|]. intros Hle. unfold timerArmed. rewrite Hk.
  destruct (Z.ltb_spec 0 (Z.max 0 (secondsLeft curr s - Z.of_nat k))); [lia|].
  apply andb_false_r.
Qed.

Lemma timer_runs_out_witness :
  secondsLeft anchor_class (Nat.iter 35 (timerCallback anchor_class) session0) = 0
  ∧ timerArmed anchor_class (Nat.iter 35 (timerCallback anchor_class) session0) = false.
Proof.
  assert (Hr : reachable utcZone RAMIPRIL session0) by (by apply reachable_mount).
  destruct (timer_runs_out utcZone RAMIPRIL session0 anchor_class 35 Hr) as [H1 H2].
  split; [rewrite H1; reflexivity | apply H2; vm_compute; discriminate].
Defined.

(** X17: "Start next dose" on the completed screen of a mounted component
    does not start a quiz: [showResults] is still set, so the results screen
    shows again, with the results of the same answers. *)
Theorem startNextDose_shows_results (zone : Zone) (drug : Drug.t) (s : State) :
  reachable zone drug s -> screen s = CompletedScreen ->
  screen (startNextDose s) = ResultsScreen
  ∧ results drug (answers (startNextDose s)) (showResults (startNextDose s))
    = Some (map (scoreAnchor (answers s)) (Drug.anchors drug))
  ∧ InProgress drug (tryAgain (startNextDose s)).
Proof.
  intros Hs Hc. apply screen_completed in Hc.
  destruct (reachable_stateInv zone drug s Hs) as (Hidx & _ & Hr).
  specialize (Hr Hc). split; [apply screen_results; by cbn|].
  split; [cbn; by rewrite Hr|].
  split; [apply screen_quiz; by cbn|]. cbn. lia.
Qed.

Lemma startNextDose_shows_results_witness :
  screen (startNextDose sessionCompleted) = ResultsScreen
  ∧ InProgress RAMIPRIL (tryAgain (startNextDose sessionCompleted)).
Proof.
  destruct (startNextDose_shows_results utcZone RAMIPRIL sessionCompleted
              (proj2 (proj2 (proj2 session_reachable))) eq_refl) as (H1 & _ & H3).
  split; [exact H1 | exact H3].
Defined.

(** ** What is stored *)

Lemma streakEffect_storage now s k :
  k ≠ "dotd_streak"%string -> k ≠ "dotd_last"%string ->
  getItem k (streakEffect now s) = getItem k s.
Proof.
  intros H1 H2. unfold streakEffect. destruct (showResults s); cbn [negb]; [|done].
  destruct (decide _); [|done].
  unfold getItem, setStreak, setItem; cbn. by rewrite !lookup_insert_ne.
Qed.

(** X18: a step of the component touches no stored key other than
    [dotd_next_at], [dotd_streak] and [dotd_last]; the unlock time is written
    only by "Mark review complete" and removed only by "Start next dose", and
    as long as the quiz stays on the quiz screen nothing is stored at all. *)
Theorem step_storage (zone : Zone) (drug : Drug.t) (s s' : State) :
  step zone drug s s' ->
  (∀ k, k ≠ "dotd_next_at"%string -> k ≠ "dotd_streak"%string -> k ≠ "dotd_last"%string ->
        getItem k s' = getItem k s)
  ∧ (getItem "dotd_next_at" s' ≠ getItem "dotd_next_at" s ->
       (∃ now, s' = markReviewComplete zone now s) ∨ s' = startNextDose s)
  ∧ (screen s = QuizScreen -> screen s' = QuizScreen -> localStorage s' = localStorage s).
Proof.
  intros Hstep.
  assert (Hsame : localStorage s' = localStorage s ->
    (∀ k, k ≠ "dotd_next_at"%string -> k ≠ "dotd_streak"%string -> k ≠ "dotd_last"%string ->
          getItem k s' = getItem k s)
    ∧ (getItem "dotd_next_at" s' ≠ getItem "dotd_next_at" s ->
         (∃ now, s' = markReviewComplete zone now s) ∨ s' = startNextDose s)
    ∧ (screen s = QuizScreen -> screen s' = QuizScreen -> localStorage s' = localStorage s)).
  { intros He. unfold getItem. rewrite He. done. }
  destruct Hstep as [s curr o Hq Hc Ho | s now Hq | s Hq Hpos | s curr Hq Hc
                    | s curr Hc Harm | s b Hq | s b Hq | s Hq | s now Hq | s Hq
                    | s now Hq Hready | s Hq Hn];
    try (apply Hsame; reflexivity).
  - apply Hsame. unfold toggle. by destruct (Anchor.type curr).
  - assert (Hg : localStorage (goNext drug s) = localStorage s)
      by (unfold goNext; by destruct (idx s + 1 <? total drug)%nat).
    split; [|split].
    + intros k _ H2 H3. rewrite streakEffect_storage by done. unfold getItem. by rewrite Hg.
    + intros Hne. destruct Hne. rewrite streakEffect_storage by done.
      unfold getItem. by rewrite Hg.
    + intros _ Hq'. apply screen_quiz in Hq' as [_ Hr'].
      destruct (streakEffect_frame now (goNext drug s)) as (_ & _ & _ & Hr & _).
      rewrite Hr in Hr'. rewrite (streakEffect_quiz now _ Hr'). exact Hg.
  - apply Hsame. unfold goBack. by destruct (0 <? idx s)%nat.
  - split; [|split].
    + intros k H1 _ _. unfold getItem, markReviewComplete, setItem; cbn.
      by rewrite lookup_insert_ne.
    + intros _. left. by exists now.
    + intros Hq'. by rewrite Hq in Hq'.
  - split; [|split].
    + intros k H1 _ _. unfold getItem, startNextDose, removeItem; cbn.
      by rewrite lookup_delete_ne.
    + intros _. by right.
    + intros Hq'. by rewrite Hq in Hq'.
Qed.

Lemma step_storage_witness :
  localStorage session2 = localStorage session1
  ∧ getItem "dotd_streak" sessionResults = Some "1"%string.
Proof.
  assert (Hs : step utcZone RAMIPRIL session1 session2).
  { apply (step_toggle utcZone RAMIPRIL session1 anchor_class (Option.mk "ace" "ACE inhibitor"));
      [done | done | apply list_elem_of_here]. }
  destruct (step_storage utcZone RAMIPRIL session1 session2 Hs) as (_ & _ & H).
  split; [by apply H | vm_compute; reflexivity].
Defined.
